(** * AgentBaker: image resolution of [pkg/agent/bakerapi.go]

    A shallow embedding of the four operations of the [AgentBaker]
    interface ([GetNodeBootstrapping], [GetLatestSigImageConfig],
    [GetDistroSigImageConfig], [GetCachedVersionsOnVHD]) and of the helper
    [findSIGImageConfig], with the properties the design document states
    about them.

    Go maps become [gmap]s, Go pointers become addresses into an explicit
    store, a Go [(value, error)] result becomes a pair of options and a
    run-time panic is an outcome of its own. *)

From stdpp Require Import base option strings list gmap fin_maps.

Local Open Scope string_scope.

(** ** Errors, as [fmt.Errorf] builds them *)

(** [errorString] is what [fmt.Errorf] returns for a format without [%w];
    [wrapError] is what it returns for a format with [%w]. *)
Inductive error : Type :=
| errorString (s : string)
| wrapError (msg : string) (err : error).

Definition Error (e : error) : string :=
  match e with
  | errorString s => s
  | wrapError msg _ => msg
  end.

(** What a Go function returning a pointer and an [error] does: it returns a pair,
    or it does not return because of a run-time panic. *)
Inductive outcome (A : Type) : Type :=
| Returns (val : option A) (err : option error)
| Panics.
Arguments Returns {A} val err.
Arguments Panics {A}.

(** ** Package [datamodel]: the types read by [bakerapi.go] *)

(** [type Distro string]; [string(distro)] is the identity. *)
Abbreviation Distro := string (only parsing).

(** Addresses of the store below. *)
Abbreviation addr := nat (only parsing).

(** Modelled from the spec: the declaration of [datamodel.SigImageConfig] is
    not part of the sources; the design document gives it
    gallery, image-definition and version fields. *)
Module SigImageConfig.
Record t : Type := mk {
  Gallery : string;
  ImageDefinition : string;
  Version : string
}.
(** [c.Version = v] on a variable [c] of the struct type. *)
Definition setVersion (v : string) (c : t) : t :=
  {| Gallery := Gallery c; ImageDefinition := ImageDefinition c; Version := v |}.
End SigImageConfig.

(** Modelled from the spec: the declaration of [datamodel.AzureOSImageConfig]
    is not part of the sources; the design document gives it
    publisher, offer, sku and version fields. *)
Module AzureOSImageConfig.
Record t : Type := mk {
  ImageOffer : string;
  ImageSku : string;
  ImagePublisher : string;
  ImageVersion : string
}.
End AzureOSImageConfig.

(** [datamodel.SIGAzureEnvironmentSpecConfig]: five sub-catalogs of type
    [map[Distro]SigImageConfig].  A Go map is a reference: the struct holds
    the addresses of five map objects of the store, and copying the struct
    shares them. *)
Module SIGAzureEnvironmentSpecConfig.
Record t : Type := mk {
  SigUbuntuImageConfig : addr;
  SigCBLMarinerImageConfig : addr;
  SigAzureLinuxImageConfig : addr;
  SigWindowsImageConfig : addr;
  SigUbuntuEdgeZoneImageConfig : addr
}.
End SIGAzureEnvironmentSpecConfig.

(** Modelled from the spec: the agent pool profile "carries Distro, OS flag";
    [IsWindows] reads the flag. *)
Inductive OSType : Type := Linux | Windows.

Module AgentPoolProfile.
Record t : Type := mk {
  Distro : Distro;
  OSType : OSType
}.
Definition IsWindows (a : t) : bool :=
  match OSType a with Windows => true | Linux => false end.
End AgentPoolProfile.

Module CloudSpecConfig.
Record t : Type := mk { CloudName : string }.
End CloudSpecConfig.

Module ContainerService.
Record t : Type := mk { Location : string }.
End ContainerService.

Module EnvironmentInfo.
Record t : Type := mk { Region : string }.
End EnvironmentInfo.

(** [datamodel.NodeBootstrappingConfiguration].  [SIGConfig] is an opaque
    selector and [Rest] stands for the fields that only the validation and
    the template generator read. *)
Module NodeBootstrappingConfiguration.
Record t (SIGConfigT RestT : Type) : Type := mk {
  AgentPoolProfile : AgentPoolProfile.t;
  CloudSpecConfig : CloudSpecConfig.t;
  SIGConfig : SIGConfigT;
  ContainerService : ContainerService.t;
  Rest : RestT
}.
Arguments mk {SIGConfigT RestT}.
Arguments AgentPoolProfile {SIGConfigT RestT}.
Arguments CloudSpecConfig {SIGConfigT RestT}.
Arguments SIGConfig {SIGConfigT RestT}.
Arguments ContainerService {SIGConfigT RestT}.
Arguments Rest {SIGConfigT RestT}.
End NodeBootstrappingConfiguration.

(** [datamodel.NodeBootstrapping].  [OSImageConfig] points to a private copy
    that nothing writes through, so it is kept as a value; [SigImageConfig]
    is a pointer that the override step writes through, so it is an address
    into the store ([None] is [nil]). *)
Module NodeBootstrapping.
Record t : Type := mk {
  CustomData : string;
  CSE : string;
  OSImageConfig : option AzureOSImageConfig.t;
  SigImageConfig : option addr
}.
Definition setOSImageConfig (o : option AzureOSImageConfig.t) (n : t) : t :=
  {| CustomData := CustomData n; CSE := CSE n;
     OSImageConfig := o; SigImageConfig := SigImageConfig n |}.
Definition setSigImageConfig (p : option addr) (n : t) : t :=
  {| CustomData := CustomData n; CSE := CSE n;
     OSImageConfig := OSImageConfig n; SigImageConfig := p |}.
End NodeBootstrapping.

(** ** The store *)

(** The part of the Go heap the resolver touches: the package-level legacy
    catalog [datamodel.AzureCloudToOSImageMap], the map objects of the SIG
    sub-catalogs, and the [SigImageConfig] variables whose address has been
    taken ([&imageConfig]). *)
Module Store.
Record t : Type := mk {
  AzureCloudToOSImageMap : gmap string (gmap Distro AzureOSImageConfig.t);
  sigMaps : list (gmap Distro SigImageConfig.t);
  sigVars : list SigImageConfig.t
}.

(** Reading the map object behind a map reference; a reference to no object
    is the [nil] map, which reads as the empty map. *)
Definition mapAt (s : t) (r : addr) : gmap Distro SigImageConfig.t :=
  default ∅ (sigMaps s !! r).

(** A new variable holding [c]; its address is returned. *)
Definition new (c : SigImageConfig.t) (s : t) : addr * t :=
  (length (sigVars s),
   {| AzureCloudToOSImageMap := AzureCloudToOSImageMap s;
      sigMaps := sigMaps s;
      sigVars := sigVars s ++ [c] |}).

(** [p.Version = v] through the pointer [p]. *)
Definition storeVersion (p : addr) (v : string) (s : t) : t :=
  {| AzureCloudToOSImageMap := AzureCloudToOSImageMap s;
     sigMaps := sigMaps s;
     sigVars := alter (SigImageConfig.setVersion v) p (sigVars s) |}.

Definition deref (s : t) (p : addr) : option SigImageConfig.t := sigVars s !! p.
End Store.

(** ** [findSIGImageConfig] *)

(** Each [if imageConfig, ok := m[distro]; ok { return &imageConfig }] copies
    the entry into a new variable and returns the address of the copy. *)
Definition findSIGImageConfig (sigConfig : SIGAzureEnvironmentSpecConfig.t)
    (distro : Distro) (s : Store.t) : option addr * Store.t :=
  match Store.mapAt s (SIGAzureEnvironmentSpecConfig.SigUbuntuImageConfig sigConfig) !! distro with
  | Some imageConfig => let (p, s) := Store.new imageConfig s in (Some p, s)
  | None =>
  match Store.mapAt s (SIGAzureEnvironmentSpecConfig.SigCBLMarinerImageConfig sigConfig) !! distro with
  | Some imageConfig => let (p, s) := Store.new imageConfig s in (Some p, s)
  | None =>
  match Store.mapAt s (SIGAzureEnvironmentSpecConfig.SigAzureLinuxImageConfig sigConfig) !! distro with
  | Some imageConfig => let (p, s) := Store.new imageConfig s in (Some p, s)
  | None =>
  match Store.mapAt s (SIGAzureEnvironmentSpecConfig.SigWindowsImageConfig sigConfig) !! distro with
  | Some imageConfig => let (p, s) := Store.new imageConfig s in (Some p, s)
  | None =>
  match Store.mapAt s (SIGAzureEnvironmentSpecConfig.SigUbuntuEdgeZoneImageConfig sigConfig) !! distro with
  | Some imageConfig => let (p, s) := Store.new imageConfig s in (Some p, s)
  | None => (None, s)
  end end end end end.

(** ** What [bakerapi.go] takes from outside the file

    The declarations below are used by [bakerapi.go] and declared elsewhere
    (packages [datamodel] and [toggles], and the validation and template
    generator of package [agent]).  They are taken as parameters, one
    interface per package. *)

Class DatamodelPkg (SIGConfigT : Type) : Type := {
  CustomizedWindowsOSImage : Distro;
  CustomizedImage : Distro;
  CustomizedImageKata : Distro;
  (** the method [Distro.IsWindowsDistro] *)
  IsWindowsDistro : Distro → bool;
  (** [GetSIGAzureCloudSpecConfig(sigConfig, region)] *)
  GetSIGAzureCloudSpecConfig :
    SIGConfigT → string → SIGAzureEnvironmentSpecConfig.t + error
}.

Class TogglesPkg (SIGConfigT RestT EntityT TogglesT : Type) : Type := {
  NewEntityFromNodeBootstrappingConfiguration :
    NodeBootstrappingConfiguration.t SIGConfigT RestT → EntityT;
  NewEntityFromEnvironmentInfo : EnvironmentInfo.t → EntityT;
  (** the method [Toggles.GetLinuxNodeImageVersion], of result type
      [map[string]string] *)
  GetLinuxNodeImageVersion : TogglesT → EntityT → gmap string string
}.

(** The two validation functions update the configuration in place: they are
    functions from the configuration before to the configuration after. *)
Class AgentPkg (SIGConfigT RestT : Type) : Type := {
  validateAndSetWindowsNodeBootstrappingConfiguration :
    NodeBootstrappingConfiguration.t SIGConfigT RestT →
    NodeBootstrappingConfiguration.t SIGConfigT RestT;
  validateAndSetLinuxNodeBootstrappingConfiguration :
    NodeBootstrappingConfiguration.t SIGConfigT RestT →
    NodeBootstrappingConfiguration.t SIGConfigT RestT;
  getNodeBootstrappingPayload :
    NodeBootstrappingConfiguration.t SIGConfigT RestT → string;
  getNodeBootstrappingCmd :
    NodeBootstrappingConfiguration.t SIGConfigT RestT → string
}.

(** [type agentBakerImpl struct { toggles *toggles.Toggles }] *)
Module agentBakerImpl.
Record t (TogglesT : Type) : Type := mk { toggles : TogglesT }.
Arguments mk {TogglesT}.
Arguments toggles {TogglesT}.
Definition WithToggles {TogglesT} (agentBaker : t TogglesT) (toggles : TogglesT)
    : t TogglesT :=
  mk toggles.
End agentBakerImpl.

(** The errors [bakerapi.go] builds, named after their kind in the design
    document. *)
Definition UnknownCloud (cloudName : string) : error :=
  errorString ("don't have settings for cloud " ++ cloudName).
Definition ImageNotFound (distro : Distro) : error :=
  errorString ("can't find image for distro " ++ distro).
Definition SigImageNotFound (distro : Distro) (region : string) : error :=
  errorString ("can't find SIG image config for distro " ++ distro
               ++ " in region " ++ region).
Definition SigConfigFailure (err : error) : error :=
  wrapError ("failed to get sig image config: " ++ Error err) err.

Section BakerAPI.
Context {SIGConfigT RestT EntityT TogglesT : Type}.
Context `{!DatamodelPkg SIGConfigT}.
Context `{!TogglesPkg SIGConfigT RestT EntityT TogglesT}.
Context `{!AgentPkg SIGConfigT RestT}.

(** [distro == CustomizedWindowsOSImage || distro == CustomizedImage ||
    distro == CustomizedImageKata] *)
Definition isCustomized (distro : Distro) : bool :=
  bool_decide (distro = CustomizedWindowsOSImage)
  || bool_decide (distro = CustomizedImage)
  || bool_decide (distro = CustomizedImageKata).

(** The configuration as the validation step leaves it; everything after
    the first statement of [GetNodeBootstrapping] reads this one. *)
Definition validated (config : NodeBootstrappingConfiguration.t SIGConfigT RestT)
    : NodeBootstrappingConfiguration.t SIGConfigT RestT :=
  if AgentPoolProfile.IsWindows (NodeBootstrappingConfiguration.AgentPoolProfile config)
  then validateAndSetWindowsNodeBootstrappingConfiguration config
  else validateAndSetLinuxNodeBootstrappingConfiguration config.

Definition GetNodeBootstrapping (agentBaker : agentBakerImpl.t TogglesT)
    (config : NodeBootstrappingConfiguration.t SIGConfigT RestT) (s : Store.t)
    : outcome NodeBootstrapping.t * Store.t :=
  let config := validated config in
  let nodeBootstrapping :=
    {| NodeBootstrapping.CustomData := getNodeBootstrappingPayload config;
       NodeBootstrapping.CSE := getNodeBootstrappingCmd config;
       NodeBootstrapping.OSImageConfig := None;
       NodeBootstrapping.SigImageConfig := None |} in
  let distro := AgentPoolProfile.Distro (NodeBootstrappingConfiguration.AgentPoolProfile config) in
  if isCustomized distro then (Returns (Some nodeBootstrapping) None, s) else
  let cloudName := CloudSpecConfig.CloudName (NodeBootstrappingConfiguration.CloudSpecConfig config) in
  match Store.AzureCloudToOSImageMap s !! cloudName with
  | None => (Returns None (Some (UnknownCloud cloudName)), s)
  | Some osImageConfigMap =>
    let nodeBootstrapping :=
      match osImageConfigMap !! distro with
      | Some osImageConfig =>
          NodeBootstrapping.setOSImageConfig (Some osImageConfig) nodeBootstrapping
      | None => nodeBootstrapping
      end in
    match GetSIGAzureCloudSpecConfig (NodeBootstrappingConfiguration.SIGConfig config)
            (ContainerService.Location (NodeBootstrappingConfiguration.ContainerService config)) with
    | inr err => (Returns None (Some err), s)
    | inl sigAzureEnvironmentSpecConfig =>
      let (p, s) := findSIGImageConfig sigAzureEnvironmentSpecConfig distro s in
      let nodeBootstrapping := NodeBootstrapping.setSigImageConfig p nodeBootstrapping in
      match NodeBootstrapping.SigImageConfig nodeBootstrapping,
            NodeBootstrapping.OSImageConfig nodeBootstrapping with
      | None, None => (Returns None (Some (ImageNotFound distro)), s)
      | _, _ =>
        if negb (AgentPoolProfile.IsWindows (NodeBootstrappingConfiguration.AgentPoolProfile config))
        then
          let e := NewEntityFromNodeBootstrappingConfiguration config in
          let imageVersionOverrides :=
            GetLinuxNodeImageVersion (agentBakerImpl.toggles agentBaker) e in
          match imageVersionOverrides !! distro with
          | Some imageVersion =>
            match NodeBootstrapping.SigImageConfig nodeBootstrapping with
            | Some p =>
                (Returns (Some nodeBootstrapping) None, Store.storeVersion p imageVersion s)
            | None => (Panics, s) (* nil pointer dereference *)
            end
          | None => (Returns (Some nodeBootstrapping) None, s)
          end
        else (Returns (Some nodeBootstrapping) None, s)
      end
    end
  end.

(** The receiver and [envInfo] are pointers in the source; they are taken
    here as the structs they point to, so the operations below are those of
    a call with a non-nil receiver and a non-nil [envInfo]. *)
Definition GetLatestSigImageConfig (agentBaker : agentBakerImpl.t TogglesT)
    (sigConfig : SIGConfigT) (distro : Distro) (envInfo : EnvironmentInfo.t)
    (s : Store.t) : outcome addr * Store.t :=
  match GetSIGAzureCloudSpecConfig sigConfig (EnvironmentInfo.Region envInfo) with
  | inr err => (Returns None (Some err), s)
  | inl sigAzureEnvironmentSpecConfig =>
    match findSIGImageConfig sigAzureEnvironmentSpecConfig distro s with
    | (None, s) =>
        (Returns None (Some (SigImageNotFound distro (EnvironmentInfo.Region envInfo))), s)
    | (Some sigImageConfig, s) =>
      if negb (IsWindowsDistro distro) then
        let e := NewEntityFromEnvironmentInfo envInfo in
        let imageVersionOverrides :=
          GetLinuxNodeImageVersion (agentBakerImpl.toggles agentBaker) e in
        match imageVersionOverrides !! distro with
        | Some imageVersion =>
            (Returns (Some sigImageConfig) None,
             Store.storeVersion sigImageConfig imageVersion s)
        | None => (Returns (Some sigImageConfig) None, s)
        end
      else (Returns (Some sigImageConfig) None, s)
    end
  end.

(** [for distro, sigConfig := range m { allDistros[distro] = sigConfig }]:
    every entry of [m] is copied into [allDistros]. *)
Definition copyAll (m allDistros : gmap Distro SigImageConfig.t)
    : gmap Distro SigImageConfig.t :=
  map_fold (λ distro sigConfig allDistros, <[distro := sigConfig]> allDistros)
           allDistros m.

(** The loop of the four other sub-catalogs: the copy [sigConfig] of the
    entry gets the override version, when there is one, before it is stored
    into [allDistros]. *)
Definition copyAllOverridden (linuxImageVersionOverrides : gmap string string)
    (m allDistros : gmap Distro SigImageConfig.t) : gmap Distro SigImageConfig.t :=
  map_fold (λ distro sigConfig allDistros,
              let sigConfig :=
                match linuxImageVersionOverrides !! distro with
                | Some version => SigImageConfig.setVersion version sigConfig
                | None => sigConfig
                end in
              <[distro := sigConfig]> allDistros)
           allDistros m.

(** The result map [allDistros] is a new map object that only the caller
    holds; it is returned as a value. *)
Definition GetDistroSigImageConfig (agentBaker : agentBakerImpl.t TogglesT)
    (sigConfig : SIGConfigT) (envInfo : EnvironmentInfo.t) (s : Store.t)
    : outcome (gmap Distro SigImageConfig.t) * Store.t :=
  match GetSIGAzureCloudSpecConfig sigConfig (EnvironmentInfo.Region envInfo) with
  | inr err => (Returns None (Some (SigConfigFailure err)), s)
  | inl allAzureSigConfig =>
    let e := NewEntityFromEnvironmentInfo envInfo in
    let linuxImageVersionOverrides :=
      GetLinuxNodeImageVersion (agentBakerImpl.toggles agentBaker) e in
    let allDistros : gmap Distro SigImageConfig.t := ∅ in
    let allDistros :=
      copyAll
        (Store.mapAt s (SIGAzureEnvironmentSpecConfig.SigWindowsImageConfig allAzureSigConfig))
        allDistros in
    let allDistros :=
      copyAllOverridden linuxImageVersionOverrides
        (Store.mapAt s (SIGAzureEnvironmentSpecConfig.SigCBLMarinerImageConfig allAzureSigConfig))
        allDistros in
    let allDistros :=
      copyAllOverridden linuxImageVersionOverrides
        (Store.mapAt s (SIGAzureEnvironmentSpecConfig.SigAzureLinuxImageConfig allAzureSigConfig))
        allDistros in
    let allDistros :=
      copyAllOverridden linuxImageVersionOverrides
        (Store.mapAt s (SIGAzureEnvironmentSpecConfig.SigUbuntuImageConfig allAzureSigConfig))
        allDistros in
    let allDistros :=
      copyAllOverridden linuxImageVersionOverrides
        (Store.mapAt s (SIGAzureEnvironmentSpecConfig.SigUbuntuEdgeZoneImageConfig allAzureSigConfig))
        allDistros in
    (Returns (Some allDistros) None, s)
  end.

(** Shorthands for what the operations read, used in the statements. *)
Definition distroOf (config : NodeBootstrappingConfiguration.t SIGConfigT RestT) : Distro :=
  AgentPoolProfile.Distro (NodeBootstrappingConfiguration.AgentPoolProfile config).
Definition cloudNameOf (config : NodeBootstrappingConfiguration.t SIGConfigT RestT) : string :=
  CloudSpecConfig.CloudName (NodeBootstrappingConfiguration.CloudSpecConfig config).
Definition profileIsWindows (config : NodeBootstrappingConfiguration.t SIGConfigT RestT) : bool :=
  AgentPoolProfile.IsWindows (NodeBootstrappingConfiguration.AgentPoolProfile config).
Definition sigEnvironmentOf (config : NodeBootstrappingConfiguration.t SIGConfigT RestT)
    : SIGAzureEnvironmentSpecConfig.t + error :=
  GetSIGAzureCloudSpecConfig (NodeBootstrappingConfiguration.SIGConfig config)
    (ContainerService.Location (NodeBootstrappingConfiguration.ContainerService config)).
Definition sigEnvironmentAt (sigConfig : SIGConfigT) (envInfo : EnvironmentInfo.t)
    : SIGAzureEnvironmentSpecConfig.t + error :=
  GetSIGAzureCloudSpecConfig sigConfig (EnvironmentInfo.Region envInfo).
(** The override mapping the toggles give for a configuration, and for an
    environment descriptor. *)
Definition overridesOfConfig (agentBaker : agentBakerImpl.t TogglesT)
    (config : NodeBootstrappingConfiguration.t SIGConfigT RestT) : gmap string string :=
  GetLinuxNodeImageVersion (agentBakerImpl.toggles agentBaker)
    (NewEntityFromNodeBootstrappingConfiguration config).
Definition overridesOfEnvironment (agentBaker : agentBakerImpl.t TogglesT)
    (envInfo : EnvironmentInfo.t) : gmap string string :=
  GetLinuxNodeImageVersion (agentBakerImpl.toggles agentBaker)
    (NewEntityFromEnvironmentInfo envInfo).
(** The artifact of a customized distro: payload and command only. *)
Definition payloadOnly (config : NodeBootstrappingConfiguration.t SIGConfigT RestT)
    : NodeBootstrapping.t :=
  {| NodeBootstrapping.CustomData := getNodeBootstrappingPayload config;
     NodeBootstrapping.CSE := getNodeBootstrappingCmd config;
     NodeBootstrapping.OSImageConfig := None;
     NodeBootstrapping.SigImageConfig := None |}.

End BakerAPI.

(** ** [GetCachedVersionsOnVHD] *)

(** The three package-level variables of package [cache].  Each is a
    reference (a pointer or a map) to an inventory object, [None] being
    [nil], the value of a variable that was never set. *)
Module cache.
Record t : Type := mk {
  FromManifest : option addr;
  FromComponentContainerImages : option addr;
  FromComponentDownloadedFiles : option addr
}.
End cache.

(** [datamodel.CachedOnVHD]: three references of the same types. *)
Module CachedOnVHD.
Record t : Type := mk {
  FromManifest : option addr;
  FromComponentContainerImages : option addr;
  FromComponentDownloadedFiles : option addr
}.
End CachedOnVHD.

Definition ManifestNotAvailable : error :=
  errorString "cached versions from manifest are not available".
Definition ContainerImagesNotAvailable : error :=
  errorString "cached versions from component container images are not available".
Definition DownloadedFilesNotAvailable : error :=
  errorString "cached versions from component download files are not available".

Definition GetCachedVersionsOnVHD (c : cache.t) : outcome CachedOnVHD.t :=
  if bool_decide (cache.FromManifest c = None)
  then Returns None (Some ManifestNotAvailable) else
  if bool_decide (cache.FromComponentContainerImages c = None)
  then Returns None (Some ContainerImagesNotAvailable) else
  if bool_decide (cache.FromComponentDownloadedFiles c = None)
  then Returns None (Some DownloadedFilesNotAvailable) else
  Returns
    (Some {| CachedOnVHD.FromManifest := cache.FromManifest c;
             CachedOnVHD.FromComponentContainerImages :=
               cache.FromComponentContainerImages c;
             CachedOnVHD.FromComponentDownloadedFiles :=
               cache.FromComponentDownloadedFiles c |})
    None.

(** ** The lookups as the design document words them *)

(** The fixed order of the family scan: general-Linux, immutable-Linux-A,
    immutable-Linux-B, Windows, region-restricted-Linux. *)
Definition familyOrder (sigConfig : SIGAzureEnvironmentSpecConfig.t) : list addr :=
  [ SIGAzureEnvironmentSpecConfig.SigUbuntuImageConfig sigConfig;
    SIGAzureEnvironmentSpecConfig.SigCBLMarinerImageConfig sigConfig;
    SIGAzureEnvironmentSpecConfig.SigAzureLinuxImageConfig sigConfig;
    SIGAzureEnvironmentSpecConfig.SigWindowsImageConfig sigConfig;
    SIGAzureEnvironmentSpecConfig.SigUbuntuEdgeZoneImageConfig sigConfig ].

(** The order in which [GetDistroSigImageConfig] runs its five loops. *)
Definition mergeOrder (sigConfig : SIGAzureEnvironmentSpecConfig.t) : list addr :=
  [ SIGAzureEnvironmentSpecConfig.SigWindowsImageConfig sigConfig;
    SIGAzureEnvironmentSpecConfig.SigCBLMarinerImageConfig sigConfig;
    SIGAzureEnvironmentSpecConfig.SigAzureLinuxImageConfig sigConfig;
    SIGAzureEnvironmentSpecConfig.SigUbuntuImageConfig sigConfig;
    SIGAzureEnvironmentSpecConfig.SigUbuntuEdgeZoneImageConfig sigConfig ].

(** The sub-catalogs whose loop in [GetDistroSigImageConfig] applies the
    override: all but the Windows one. *)
Definition overriddenFamilies (sigConfig : SIGAzureEnvironmentSpecConfig.t) : list addr :=
  [ SIGAzureEnvironmentSpecConfig.SigCBLMarinerImageConfig sigConfig;
    SIGAzureEnvironmentSpecConfig.SigAzureLinuxImageConfig sigConfig;
    SIGAzureEnvironmentSpecConfig.SigUbuntuImageConfig sigConfig;
    SIGAzureEnvironmentSpecConfig.SigUbuntuEdgeZoneImageConfig sigConfig ].

(** [distro] is in none of the sub-catalogs [rs]. *)
Definition absentFrom (s : Store.t) (distro : Distro) (rs : list addr) : Prop :=
  Forall (λ r, Store.mapAt s r !! distro = None) rs.

(** "Return the first match": the entry of the first sub-catalog of the
    family order that has the distro. *)
Definition firstMatch (s : Store.t) (sigConfig : SIGAzureEnvironmentSpecConfig.t)
    (distro : Distro) : option SigImageConfig.t :=
  head (omap (λ r, Store.mapAt s r !! distro) (familyOrder sigConfig)).

(** "Replace the version field with the override value when the distro's
    string key is present in the mapping." *)
Definition overridden (overrides : gmap string string) (distro : Distro)
    (c : SigImageConfig.t) : SigImageConfig.t :=
  match overrides !! distro with
  | Some version => SigImageConfig.setVersion version c
  | None => c
  end.

(** What a lookup of [distro] finds: the variable behind the pointer that
    [findSIGImageConfig] returns. *)
Definition lookupEntry (sigConfig : SIGAzureEnvironmentSpecConfig.t)
    (distro : Distro) (s : Store.t) : option SigImageConfig.t :=
  let (p, s) := findSIGImageConfig sigConfig distro s in
  p ≫= Store.deref s.

(** The catalogs held by a store. *)
Definition catalogs (s : Store.t)
    : gmap string (gmap Distro AzureOSImageConfig.t) * list (gmap Distro SigImageConfig.t) :=
  (Store.AzureCloudToOSImageMap s, Store.sigMaps s).

(** [errors.Unwrap]: the error a [%w] format wrapped, [nil] for an error
    that wraps nothing. *)
Definition Unwrap (e : error) : option error :=
  match e with
  | errorString _ => None
  | wrapError _ err => Some err
  end.

(** [s'] has the variables of [s], with the values they had, and at most
    one more. *)
Definition variablesKept (s s' : Store.t) : Prop :=
  ∃ l, Store.sigVars s' = (Store.sigVars s ++ l)%list ∧ (length l ≤ 1)%nat.

(** ** A small concrete world

    One instance of every interface above and a store with a few catalog
    entries, on which the operations are run. *)
Module Example.

Definition entry (gallery version : string) : SigImageConfig.t :=
  {| SigImageConfig.Gallery := gallery;
     SigImageConfig.ImageDefinition := "gen2";
     SigImageConfig.Version := version |}.

Definition legacy (version : string) : AzureOSImageConfig.t :=
  {| AzureOSImageConfig.ImageOffer := "aks";
     AzureOSImageConfig.ImageSku := "aks-ubuntu-1804";
     AzureOSImageConfig.ImagePublisher := "microsoft-aks";
     AzureOSImageConfig.ImageVersion := version |}.

(** Map objects 0 to 4 are the Ubuntu, CBLMariner, AzureLinux, Windows and
    UbuntuEdgeZone sub-catalogs. *)
Definition spec : SIGAzureEnvironmentSpecConfig.t :=
  {| SIGAzureEnvironmentSpecConfig.SigUbuntuImageConfig := 0;
     SIGAzureEnvironmentSpecConfig.SigCBLMarinerImageConfig := 1;
     SIGAzureEnvironmentSpecConfig.SigAzureLinuxImageConfig := 2;
     SIGAzureEnvironmentSpecConfig.SigWindowsImageConfig := 3;
     SIGAzureEnvironmentSpecConfig.SigUbuntuEdgeZoneImageConfig := 4 |}.

(** ["aks-ubuntu"] is in the Ubuntu sub-catalog only, ["both"] is in the
    Ubuntu and in the CBLMariner sub-catalogs, ["aks-windows"] is in the
    Windows sub-catalog only, and ["rhel"] is in the legacy catalog only. *)
Definition store : Store.t :=
  {| Store.AzureCloudToOSImageMap :=
       {[ "AzurePublicCloud" :=
            {[ "rhel" := legacy "7.3"; "aks-ubuntu" := legacy "2019.01" ]} ]};
     Store.sigMaps :=
       [ {[ "aks-ubuntu" := entry "AKSUbuntu" "2024.01";
            "both" := entry "AKSUbuntu" "2024.02" ]};
         {[ "both" := entry "AKSCBLMariner" "2024.03" ]};
         ∅;
         {[ "aks-windows" := entry "AKSWindows" "17763.1" ]};
         ∅ ];
     Store.sigVars := [] |}.

Definition datamodelPkg : DatamodelPkg unit :=
  {| CustomizedWindowsOSImage := "CustomizedWindowsOSImage";
     CustomizedImage := "CustomizedImage";
     CustomizedImageKata := "CustomizedImageKata";
     IsWindowsDistro := λ distro, bool_decide (distro = "aks-windows");
     GetSIGAzureCloudSpecConfig := λ _ region,
       if bool_decide (region = "nowhere")
       then inr (errorString "unknown region") else inl spec |}.

(** The toggles are the override mapping itself. *)
Definition togglesPkg : TogglesPkg unit unit unit (gmap string string) :=
  {| NewEntityFromNodeBootstrappingConfiguration := λ _, tt;
     NewEntityFromEnvironmentInfo := λ _, tt;
     GetLinuxNodeImageVersion := λ toggles _, toggles |}.

Definition agentPkg : AgentPkg unit unit :=
  {| validateAndSetWindowsNodeBootstrappingConfiguration := λ config, config;
     validateAndSetLinuxNodeBootstrappingConfiguration := λ config, config;
     getNodeBootstrappingPayload := λ _, "payload";
     getNodeBootstrappingCmd := λ _, "cmd" |}.

Definition config (distro : Distro) (os : OSType) (cloudName : string)
    : NodeBootstrappingConfiguration.t unit unit :=
  {| NodeBootstrappingConfiguration.AgentPoolProfile :=
       {| AgentPoolProfile.Distro := distro; AgentPoolProfile.OSType := os |};
     NodeBootstrappingConfiguration.CloudSpecConfig :=
       {| CloudSpecConfig.CloudName := cloudName |};
     NodeBootstrappingConfiguration.SIGConfig := tt;
     NodeBootstrappingConfiguration.ContainerService :=
       {| ContainerService.Location := "eastus" |};
     NodeBootstrappingConfiguration.Rest := tt |}.

Definition envInfo : EnvironmentInfo.t := {| EnvironmentInfo.Region := "eastus" |}.

(** An agent baker whose toggles override the version of all four distros,
    and one whose toggles override nothing. *)
Definition agentBaker : agentBakerImpl.t (gmap string string) :=
  agentBakerImpl.mk
    {[ "aks-ubuntu" := "override"; "both" := "override";
       "aks-windows" := "override"; "rhel" := "override" ]}.

Definition plainBaker : agentBakerImpl.t (gmap string string) :=
  agentBakerImpl.WithToggles agentBaker ∅.

End Example.

(** * Properties *)

Local Open Scope list_scope.

(** ** The store *)

Lemma deref_new (c : SigImageConfig.t) (s : Store.t) :
  Store.deref (Store.new c s).2 (Store.new c s).1 = Some c.
Proof.
  unfold Store.deref, Store.new; simpl.
  rewrite lookup_app_r by lia.
  by rewrite Nat.sub_diag.
Qed.

Lemma catalogs_new (c : SigImageConfig.t) (s : Store.t) :
  catalogs (Store.new c s).2 = catalogs s.
Proof. reflexivity. Qed.

Lemma catalogs_storeVersion (p : addr) (v : string) (s : Store.t) :
  catalogs (Store.storeVersion p v s) = catalogs s.
Proof. reflexivity. Qed.

Lemma deref_storeVersion (p : addr) (v : string) (s : Store.t) :
  Store.deref (Store.storeVersion p v s) p
  = SigImageConfig.setVersion v <$> Store.deref s p.
Proof.
  unfold Store.deref, Store.storeVersion; simpl.
  rewrite list_lookup_alter. by rewrite decide_True.
Qed.

Lemma mapAt_catalogs (s s' : Store.t) (r : addr) :
  catalogs s' = catalogs s → Store.mapAt s' r = Store.mapAt s r.
Proof. unfold catalogs, Store.mapAt. by intros [= _ ->]. Qed.

(** ** The family scan *)

Lemma head_omap_first {A B} (f : A → option B) (pre post : list A) (x : A) (y : B) :
  Forall (λ a, f a = None) pre → f x = Some y →
  head (omap f (pre ++ x :: post)) = Some y.
Proof.
  intros Hpre Hx. induction Hpre as [|a pre Ha _ IH]; simpl.
  - by rewrite Hx.
  - by rewrite Ha.
Qed.

Lemma head_omap_none {A B} (f : A → option B) (l : list A) :
  Forall (λ a, f a = None) l ↔ head (omap f l) = None.
Proof.
  induction l as [|a l IH]; simpl.
  - split; [done | constructor].
  - destruct (f a) eqn:Ha; simpl.
    + split; [| done]. intros H. apply Forall_cons in H as [H _]. congruence.
    + rewrite <- IH. split.
      * intros H. by apply Forall_cons in H as [_ H].
      * intros H. by constructor.
Qed.

Lemma firstMatch_first s sigConfig distro pre r post c :
  familyOrder sigConfig = pre ++ r :: post →
  absentFrom s distro pre →
  Store.mapAt s r !! distro = Some c →
  firstMatch s sigConfig distro = Some c.
Proof.
  intros Hsplit Hpre Hr. unfold firstMatch. rewrite Hsplit.
  by apply head_omap_first.
Qed.

Lemma firstMatch_None s sigConfig distro :
  absentFrom s distro (familyOrder sigConfig) ↔ firstMatch s sigConfig distro = None.
Proof. apply head_omap_none. Qed.

Lemma firstMatch_catalogs s s' sigConfig distro :
  catalogs s' = catalogs s →
  firstMatch s' sigConfig distro = firstMatch s sigConfig distro.
Proof.
  intros H. unfold firstMatch, familyOrder; simpl.
  by rewrite !(mapAt_catalogs _ _ _ H).
Qed.

(** The code of [findSIGImageConfig] against the scan in words: the entry
    of the first match is copied into a new variable, whose address is
    returned; with no match the result is [nil] and nothing is allocated. *)
Lemma findSIGImageConfig_firstMatch sigConfig distro s :
  findSIGImageConfig sigConfig distro s =
  match firstMatch s sigConfig distro with
  | Some c => (Some (Store.new c s).1, (Store.new c s).2)
  | None => (None, s)
  end.
Proof.
  unfold findSIGImageConfig, firstMatch, familyOrder; simpl.
  repeat (match goal with
          | |- context [Store.mapAt s ?r !! distro] =>
              destruct (Store.mapAt s r !! distro); simpl; [reflexivity |]
          end).
  reflexivity.
Qed.

Lemma findSIGImageConfig_catalogs sigConfig distro s :
  catalogs (findSIGImageConfig sigConfig distro s).2 = catalogs s.
Proof.
  rewrite findSIGImageConfig_firstMatch.
  by destruct (firstMatch s sigConfig distro).
Qed.

Lemma lookupEntry_firstMatch sigConfig distro s :
  lookupEntry sigConfig distro s = firstMatch s sigConfig distro.
Proof.
  unfold lookupEntry. rewrite findSIGImageConfig_firstMatch.
  destruct (firstMatch s sigConfig distro) as [c|]; [| done].
  simpl. apply (deref_new c s).
Qed.

(** C1. [findSIGImageConfig] inspects the sub-catalogs in the order Ubuntu,
    CBLMariner, AzureLinux, Windows, UbuntuEdgeZone: whenever the distro is
    in some sub-catalog [r] and in none of those before [r] in this order
    (whatever the ones after [r] hold), the pointer returned points to a copy
    of the entry of [r]; and when the distro is in none of the five, the
    result is [nil]. *)
Theorem findSIGImageConfig_first_in_order
    (sigConfig : SIGAzureEnvironmentSpecConfig.t) (distro : Distro) (s : Store.t) :
  (∀ pre r post c,
     familyOrder sigConfig = pre ++ r :: post →
     absentFrom s distro pre →
     Store.mapAt s r !! distro = Some c →
     ∃ p s', findSIGImageConfig sigConfig distro s = (Some p, s')
             ∧ Store.deref s' p = Some c)
  ∧ (absentFrom s distro (familyOrder sigConfig) →
     findSIGImageConfig sigConfig distro s = (None, s)).
Proof.
  split.
  - intros pre r post c Hsplit Hpre Hr.
    rewrite findSIGImageConfig_firstMatch,
      (firstMatch_first _ _ _ _ _ _ _ Hsplit Hpre Hr).
    eexists _, _. split; [reflexivity |]. apply deref_new.
  - intros Habs. apply firstMatch_None in Habs.
    by rewrite findSIGImageConfig_firstMatch, Habs.
Qed.

(** ** The resolution operations *)

Section ResolutionProperties.
Context {SIGConfigT RestT EntityT TogglesT : Type}.
Context `{!DatamodelPkg SIGConfigT}.
Context `{!TogglesPkg SIGConfigT RestT EntityT TogglesT}.
Context `{!AgentPkg SIGConfigT RestT}.
Implicit Types (agentBaker : agentBakerImpl.t TogglesT).
Implicit Types (config : NodeBootstrappingConfiguration.t SIGConfigT RestT).
Implicit Types (s : Store.t) (distro : Distro).

Lemma isCustomized_true distro :
  isCustomized distro = true ↔
  distro = CustomizedWindowsOSImage ∨ distro = CustomizedImage
  ∨ distro = CustomizedImageKata.
Proof.
  unfold isCustomized.
  rewrite !orb_true_iff, !bool_decide_eq_true. tauto.
Qed.

Lemma GetNodeBootstrapping_customized agentBaker config s :
  isCustomized (distroOf (validated config)) = true →
  GetNodeBootstrapping agentBaker config s
  = (Returns (Some (payloadOnly (validated config))) None, s).
Proof.
  intros Hc. unfold GetNodeBootstrapping.
  fold (distroOf (validated config)). by rewrite Hc.
Qed.

Lemma GetNodeBootstrapping_no_cloud agentBaker config s :
  isCustomized (distroOf (validated config)) = false →
  Store.AzureCloudToOSImageMap s !! cloudNameOf (validated config) = None →
  GetNodeBootstrapping agentBaker config s
  = (Returns None (Some (UnknownCloud (cloudNameOf (validated config)))), s).
Proof.
  intros Hc Hcloud. unfold GetNodeBootstrapping.
  fold (distroOf (validated config)). rewrite Hc.
  fold (cloudNameOf (validated config)). by rewrite Hcloud.
Qed.

(** What [GetNodeBootstrapping] does once the distro is not customized, the
    cloud is known and the SIG environment is resolved, by the results of
    the two lookups. *)
Lemma GetNodeBootstrapping_resolved agentBaker config s osImageConfigMap sigEnv :
  isCustomized (distroOf (validated config)) = false →
  Store.AzureCloudToOSImageMap s !! cloudNameOf (validated config)
    = Some osImageConfigMap →
  sigEnvironmentOf (validated config) = inl sigEnv →
  GetNodeBootstrapping agentBaker config s =
  let distro := distroOf (validated config) in
  let legacy := osImageConfigMap !! distro in
  let overrides := overridesOfConfig agentBaker (validated config) in
  match firstMatch s sigEnv distro with
  | Some c =>
      let (p, s') := Store.new c s in
      let nodeBootstrapping :=
        NodeBootstrapping.setSigImageConfig (Some p)
          (NodeBootstrapping.setOSImageConfig legacy (payloadOnly (validated config))) in
      (Returns (Some nodeBootstrapping) None,
       if profileIsWindows (validated config) then s'
       else match overrides !! distro with
            | Some imageVersion => Store.storeVersion p imageVersion s'
            | None => s'
            end)
  | None =>
      match legacy with
      | None => (Returns None (Some (ImageNotFound distro)), s)
      | Some _ =>
          if negb (profileIsWindows (validated config))
             && bool_decide (is_Some (overrides !! distro))
          then (Panics, s)
          else (Returns
                  (Some (NodeBootstrapping.setOSImageConfig legacy
                           (payloadOnly (validated config))))
                  None, s)
      end
  end.
Proof.
  intros Hc Hcloud Hsig. unfold GetNodeBootstrapping.
  fold (distroOf (validated config)). rewrite Hc.
  fold (cloudNameOf (validated config)). rewrite Hcloud.
  fold (sigEnvironmentOf (validated config)). rewrite Hsig.
  fold (profileIsWindows (validated config)).
  fold (overridesOfConfig agentBaker (validated config)).
  fold (payloadOnly (validated config)).
  rewrite findSIGImageConfig_firstMatch. cbv zeta.
  destruct (firstMatch s sigEnv (distroOf (validated config))) as [c|];
    destruct (osImageConfigMap !! distroOf (validated config)) as [o|];
    destruct (profileIsWindows (validated config));
    destruct (overridesOfConfig agentBaker (validated config)
                !! distroOf (validated config)) as [v|];
    reflexivity.
Qed.

Lemma GetLatestSigImageConfig_resolved agentBaker (sigConfig : SIGConfigT)
    distro (envInfo : EnvironmentInfo.t) s sigEnv :
  sigEnvironmentAt sigConfig envInfo = inl sigEnv →
  GetLatestSigImageConfig agentBaker sigConfig distro envInfo s =
  match firstMatch s sigEnv distro with
  | Some c =>
      let (p, s') := Store.new c s in
      (Returns (Some p) None,
       if IsWindowsDistro distro then s'
       else match overridesOfEnvironment agentBaker envInfo !! distro with
            | Some imageVersion => Store.storeVersion p imageVersion s'
            | None => s'
            end)
  | None =>
      (Returns None (Some (SigImageNotFound distro (EnvironmentInfo.Region envInfo))), s)
  end.
Proof.
  intros Hsig. unfold GetLatestSigImageConfig.
  fold (sigEnvironmentAt sigConfig envInfo). rewrite Hsig.
  fold (overridesOfEnvironment agentBaker envInfo).
  rewrite findSIGImageConfig_firstMatch.
  destruct (firstMatch s sigEnv distro) as [c|]; [| reflexivity].
  simpl. destruct (IsWindowsDistro distro); simpl; [reflexivity |].
  by destruct (overridesOfEnvironment agentBaker envInfo !! distro).
Qed.

(** The two loops of [GetDistroSigImageConfig], read through a lookup: the
    entries of the sub-catalog win over what [allDistros] held. *)
Lemma lookup_copyAll (m allDistros : gmap Distro SigImageConfig.t) distro :
  copyAll m allDistros !! distro
  = match m !! distro with Some c => Some c | None => allDistros !! distro end.
Proof.
  unfold copyAll. revert distro.
  apply (map_fold_weak_ind
           (λ r m, ∀ distro, r !! distro
              = match m !! distro with Some c => Some c | None => allDistros !! distro end)).
  - intros distro. by rewrite lookup_empty.
  - intros i x m' r _ IH distro. destruct (decide (i = distro)) as [->|Hne].
    + by rewrite !lookup_insert_eq.
    + rewrite !lookup_insert_ne by done. apply IH.
Qed.

Lemma lookup_copyAllOverridden overrides (m allDistros : gmap Distro SigImageConfig.t) distro :
  copyAllOverridden overrides m allDistros !! distro
  = match m !! distro with
    | Some c => Some (overridden overrides distro c)
    | None => allDistros !! distro
    end.
Proof.
  unfold copyAllOverridden. revert distro.
  apply (map_fold_weak_ind
           (λ r m, ∀ distro, r !! distro
              = match m !! distro with
                | Some c => Some (overridden overrides distro c)
                | None => allDistros !! distro
                end)).
  - intros distro. by rewrite lookup_empty.
  - intros i x m' r _ IH distro. destruct (decide (i = distro)) as [->|Hne].
    + by rewrite !lookup_insert_eq.
    + rewrite !lookup_insert_ne by done. apply IH.
Qed.

(** The map [GetDistroSigImageConfig] returns, entry by entry: the last of
    the five loops that has the distro decides. *)
Lemma GetDistroSigImageConfig_resolved agentBaker (sigConfig : SIGConfigT)
    (envInfo : EnvironmentInfo.t) s sigEnv :
  sigEnvironmentAt sigConfig envInfo = inl sigEnv →
  ∃ allDistros : gmap Distro SigImageConfig.t,
    GetDistroSigImageConfig agentBaker sigConfig envInfo s
    = (Returns (Some allDistros) None, s)
    ∧ ∀ distro,
        let overrides := overridesOfEnvironment agentBaker envInfo in
        allDistros !! distro =
        match Store.mapAt s (SIGAzureEnvironmentSpecConfig.SigUbuntuEdgeZoneImageConfig sigEnv) !! distro with
        | Some c => Some (overridden overrides distro c)
        | None =>
        match Store.mapAt s (SIGAzureEnvironmentSpecConfig.SigUbuntuImageConfig sigEnv) !! distro with
        | Some c => Some (overridden overrides distro c)
        | None =>
        match Store.mapAt s (SIGAzureEnvironmentSpecConfig.SigAzureLinuxImageConfig sigEnv) !! distro with
        | Some c => Some (overridden overrides distro c)
        | None =>
        match Store.mapAt s (SIGAzureEnvironmentSpecConfig.SigCBLMarinerImageConfig sigEnv) !! distro with
        | Some c => Some (overridden overrides distro c)
        | None =>
            Store.mapAt s (SIGAzureEnvironmentSpecConfig.SigWindowsImageConfig sigEnv) !! distro
        end end end end.
Proof.
  intros Hsig. unfold GetDistroSigImageConfig.
  fold (sigEnvironmentAt sigConfig envInfo). rewrite Hsig.
  fold (overridesOfEnvironment agentBaker envInfo).
  eexists. split; [reflexivity |].
  intros distro. cbv zeta.
  rewrite !lookup_copyAllOverridden, lookup_copyAll, lookup_empty.
  by destruct (Store.mapAt s (SIGAzureEnvironmentSpecConfig.SigWindowsImageConfig sigEnv) !! distro).
Qed.

Lemma GetNodeBootstrapping_catalogs agentBaker config s :
  catalogs (GetNodeBootstrapping agentBaker config s).2 = catalogs s.
Proof.
  unfold GetNodeBootstrapping.
  repeat (match goal with
          | |- context [findSIGImageConfig ?c ?d ?s] =>
              let H := fresh in
              pose proof (findSIGImageConfig_catalogs c d s) as H;
              destruct (findSIGImageConfig c d s); simpl in H
          | |- context [match ?x with _ => _ end] => destruct x; simpl
          end); try done.
Qed.

Lemma GetLatestSigImageConfig_catalogs agentBaker (sigConfig : SIGConfigT)
    distro (envInfo : EnvironmentInfo.t) s :
  catalogs (GetLatestSigImageConfig agentBaker sigConfig distro envInfo s).2
  = catalogs s.
Proof.
  unfold GetLatestSigImageConfig.
  repeat (match goal with
          | |- context [findSIGImageConfig ?c ?d ?s] =>
              let H := fresh in
              pose proof (findSIGImageConfig_catalogs c d s) as H;
              destruct (findSIGImageConfig c d s); simpl in H
          | |- context [match ?x with _ => _ end] => destruct x; simpl
          end); try done.
Qed.

Lemma GetDistroSigImageConfig_store agentBaker (sigConfig : SIGConfigT)
    (envInfo : EnvironmentInfo.t) s :
  (GetDistroSigImageConfig agentBaker sigConfig envInfo s).2 = s.
Proof.
  unfold GetDistroSigImageConfig.
  by destruct (GetSIGAzureCloudSpecConfig sigConfig (EnvironmentInfo.Region envInfo)).
Qed.

(** The version behind the pointer that [GetNodeBootstrapping] returns, when
    the SIG lookup found the entry [c]: the flag of the agent pool profile
    decides whether the override is written. *)
Lemma GetNodeBootstrapping_version agentBaker config s osImageConfigMap sigEnv c :
  isCustomized (distroOf (validated config)) = false →
  Store.AzureCloudToOSImageMap s !! cloudNameOf (validated config)
    = Some osImageConfigMap →
  sigEnvironmentOf (validated config) = inl sigEnv →
  firstMatch s sigEnv (distroOf (validated config)) = Some c →
  ∃ nodeBootstrapping p s',
    GetNodeBootstrapping agentBaker config s
      = (Returns (Some nodeBootstrapping) None, s')
    ∧ NodeBootstrapping.SigImageConfig nodeBootstrapping = Some p
    ∧ Store.deref s' p
      = Some (if profileIsWindows (validated config) then c
              else overridden (overridesOfConfig agentBaker (validated config))
                     (distroOf (validated config)) c).
Proof.
  intros Hc Hcloud Hsig Hfind.
  rewrite (GetNodeBootstrapping_resolved _ _ _ _ _ Hc Hcloud Hsig).
  cbv zeta. rewrite Hfind. simpl.
  eexists _, _, _. split; [reflexivity |]. split; [reflexivity |].
  pose proof (deref_new c s) as Hnew. simpl in Hnew.
  destruct (profileIsWindows (validated config)); [exact Hnew |].
  unfold overridden.
  destruct (overridesOfConfig agentBaker (validated config)
              !! distroOf (validated config)) as [v|]; [| exact Hnew].
  rewrite deref_storeVersion. simpl in *. by rewrite Hnew.
Qed.

(** The same for [GetLatestSigImageConfig], where the classification of the
    distro decides. *)
Lemma GetLatestSigImageConfig_version agentBaker (sigConfig : SIGConfigT)
    distro (envInfo : EnvironmentInfo.t) s sigEnv c :
  sigEnvironmentAt sigConfig envInfo = inl sigEnv →
  firstMatch s sigEnv distro = Some c →
  ∃ p s',
    GetLatestSigImageConfig agentBaker sigConfig distro envInfo s
      = (Returns (Some p) None, s')
    ∧ Store.deref s' p
      = Some (if IsWindowsDistro distro then c
              else overridden (overridesOfEnvironment agentBaker envInfo) distro c)
    ∧ catalogs s' = catalogs s.
Proof.
  intros Hsig Hfind.
  rewrite (GetLatestSigImageConfig_resolved _ _ _ _ _ _ Hsig), Hfind. simpl.
  eexists _, _. split; [reflexivity |].
  pose proof (deref_new c s) as Hnew. simpl in Hnew.
  destruct (IsWindowsDistro distro); [by split |].
  unfold overridden.
  destruct (overridesOfEnvironment agentBaker envInfo !! distro) as [v|];
    [| by split].
  split; [| done]. rewrite deref_storeVersion. simpl in *. by rewrite Hnew.
Qed.

Lemma present_in_family s sigEnv distro :
  (∃ r, r ∈ familyOrder sigEnv ∧ is_Some (Store.mapAt s r !! distro)) ↔
  is_Some (firstMatch s sigEnv distro).
Proof.
  rewrite <- not_eq_None_Some, <- firstMatch_None.
  unfold absentFrom. rewrite Forall_forall. split.
  - intros (r & Hr & [c Hc]) Hall. specialize (Hall r Hr). congruence.
  - intros Hnot.
    destruct (decide (Exists (λ r, is_Some (Store.mapAt s r !! distro))
                             (familyOrder sigEnv))) as [Hex|Hnex].
    + apply Exists_exists in Hex as (r & Hr & Hsome). by exists r.
    + exfalso. apply Hnot. intros r Hr.
      apply eq_None_not_Some. intros Hsome.
      apply Hnex, Exists_exists. by exists r.
Qed.

(** C6. A configuration whose distro is [CustomizedWindowsOSImage],
    [CustomizedImage] or [CustomizedImageKata] gets the artifact with the
    payload and the command only, both image configs being [nil], and no
    error; the store is left as it was.  The result mentions neither the
    legacy catalog, nor the SIG environment, nor the toggles: it is the same
    whatever they hold, and whether or not the cloud or the region is
    known.  The distro is the one the code reads, after the validation
    step. *)
Theorem GetNodeBootstrapping_customized_bypass agentBaker config s :
  distroOf (validated config) = CustomizedWindowsOSImage
  ∨ distroOf (validated config) = CustomizedImage
  ∨ distroOf (validated config) = CustomizedImageKata →
  GetNodeBootstrapping agentBaker config s
  = (Returns
       (Some {| NodeBootstrapping.CustomData :=
                  getNodeBootstrappingPayload (validated config);
                NodeBootstrapping.CSE := getNodeBootstrappingCmd (validated config);
                NodeBootstrapping.OSImageConfig := None;
                NodeBootstrapping.SigImageConfig := None |})
       None,
     s).
Proof.
  intros Hc. apply isCustomized_true in Hc.
  by rewrite GetNodeBootstrapping_customized.
Qed.

(** C7. For a configuration whose distro is not customized and whose cloud
    name is not a key of [AzureCloudToOSImageMap], the result is [nil] with
    the error "don't have settings for cloud ...", whatever the agent baker
    and the rest of the configuration and of the store are.  Distro and
    cloud name are the ones the code reads, after the validation step. *)
Theorem GetNodeBootstrapping_unknown_cloud agentBaker config s :
  isCustomized (distroOf (validated config)) = false →
  Store.AzureCloudToOSImageMap s !! cloudNameOf (validated config) = None →
  GetNodeBootstrapping agentBaker config s
  = (Returns None (Some (UnknownCloud (cloudNameOf (validated config)))), s).
Proof. apply GetNodeBootstrapping_no_cloud. Qed.

(** C5. With a distro that is not customized, a known cloud and a resolved
    SIG environment, [GetNodeBootstrapping] returns the error "can't find
    image for distro ..." exactly when the distro is neither in the legacy
    catalog of the cloud nor in any of the five sub-catalogs; and when one
    of the two lookups has an entry, it returns no error at all. *)
Theorem GetNodeBootstrapping_image_not_found agentBaker config s
    osImageConfigMap sigEnv :
  isCustomized (distroOf (validated config)) = false →
  Store.AzureCloudToOSImageMap s !! cloudNameOf (validated config)
    = Some osImageConfigMap →
  sigEnvironmentOf (validated config) = inl sigEnv →
  ((GetNodeBootstrapping agentBaker config s).1
     = Returns None (Some (ImageNotFound (distroOf (validated config))))
   ↔ osImageConfigMap !! distroOf (validated config) = None
     ∧ absentFrom s (distroOf (validated config)) (familyOrder sigEnv))
  ∧ (is_Some (osImageConfigMap !! distroOf (validated config))
     ∨ (∃ r, r ∈ familyOrder sigEnv
             ∧ is_Some (Store.mapAt s r !! distroOf (validated config))) →
     ∀ val err,
       (GetNodeBootstrapping agentBaker config s).1 ≠ Returns val (Some err)).
Proof.
  intros Hc Hcloud Hsig.
  rewrite (GetNodeBootstrapping_resolved _ _ _ _ _ Hc Hcloud Hsig).
  rewrite present_in_family, firstMatch_None. cbv zeta.
  destruct (firstMatch s sigEnv (distroOf (validated config))) as [c|];
    destruct (osImageConfigMap !! distroOf (validated config)) as [o|];
    simpl.
  - split; [split; [done | intros [[=] _]] | done].
  - split; [split; [done | intros [_ [=]]] | done].
  - split.
    + split; [| intros [[=] _]].
      by destruct (negb _ && _).
    + intros _ val err. by destruct (negb _ && _).
  - split; [done |]. intros [[? [=]] | [? [=]]].
Qed.

(** C10. In [GetNodeBootstrapping] the override is gated on the Windows
    flag of the agent pool profile and not on the distro: when the SIG
    lookup found the entry [c], a profile that is not flagged Windows gets
    the override version for the distro's key (the [Version] of the value
    returned is the override value, its other fields are those of [c]), and
    a profile that is flagged Windows gets the catalog entry [c] with its
    own version, whatever [IsWindowsDistro] answers for the distro ([b]
    below is free).  [GetLatestSigImageConfig] gates on [IsWindowsDistro]:
    the override version for a distro that is not a Windows distro, the
    catalog entry for one that is. *)
Theorem override_gates agentBaker :
  (∀ config s osImageConfigMap sigEnv c (b : bool),
     isCustomized (distroOf (validated config)) = false →
     Store.AzureCloudToOSImageMap s !! cloudNameOf (validated config)
       = Some osImageConfigMap →
     sigEnvironmentOf (validated config) = inl sigEnv →
     firstMatch s sigEnv (distroOf (validated config)) = Some c →
     IsWindowsDistro (distroOf (validated config)) = b →
     (∀ imageVersion,
        profileIsWindows (validated config) = false →
        overridesOfConfig agentBaker (validated config)
          !! distroOf (validated config) = Some imageVersion →
        ∃ nodeBootstrapping p s' c',
          GetNodeBootstrapping agentBaker config s
            = (Returns (Some nodeBootstrapping) None, s')
          ∧ NodeBootstrapping.SigImageConfig nodeBootstrapping = Some p
          ∧ Store.deref s' p = Some c'
          ∧ SigImageConfig.Version c' = imageVersion
          ∧ SigImageConfig.Gallery c' = SigImageConfig.Gallery c
          ∧ SigImageConfig.ImageDefinition c' = SigImageConfig.ImageDefinition c)
     ∧ (profileIsWindows (validated config) = true →
        ∃ nodeBootstrapping p s',
          GetNodeBootstrapping agentBaker config s
            = (Returns (Some nodeBootstrapping) None, s')
          ∧ NodeBootstrapping.SigImageConfig nodeBootstrapping = Some p
          ∧ Store.deref s' p = Some c))
  ∧ (∀ (sigConfig : SIGConfigT) distro (envInfo : EnvironmentInfo.t) s sigEnv c,
       sigEnvironmentAt sigConfig envInfo = inl sigEnv →
       firstMatch s sigEnv distro = Some c →
       (∀ imageVersion,
          IsWindowsDistro distro = false →
          overridesOfEnvironment agentBaker envInfo !! distro = Some imageVersion →
          ∃ p s' c',
            GetLatestSigImageConfig agentBaker sigConfig distro envInfo s
              = (Returns (Some p) None, s')
            ∧ Store.deref s' p = Some c'
            ∧ SigImageConfig.Version c' = imageVersion
            ∧ SigImageConfig.Gallery c' = SigImageConfig.Gallery c
            ∧ SigImageConfig.ImageDefinition c' = SigImageConfig.ImageDefinition c)
       ∧ (IsWindowsDistro distro = true →
          ∃ p s',
            GetLatestSigImageConfig agentBaker sigConfig distro envInfo s
              = (Returns (Some p) None, s')
            ∧ Store.deref s' p = Some c)).
Proof.
  split.
  - intros config s osImageConfigMap sigEnv c b Hc Hcloud Hsig Hfind _.
    destruct (GetNodeBootstrapping_version agentBaker _ _ _ _ _ Hc Hcloud Hsig Hfind)
      as (nb & p & s' & Hrun & Hp & Hderef).
    split.
    + intros v Hflag Hov. exists nb, p, s', (SigImageConfig.setVersion v c).
      rewrite Hflag in Hderef. unfold overridden in Hderef.
      rewrite Hov in Hderef. by repeat split.
    + intros Hflag. exists nb, p, s'. by rewrite Hflag in Hderef.
  - intros sigConfig distro envInfo s sigEnv c Hsig Hfind.
    destruct (GetLatestSigImageConfig_version agentBaker _ _ _ _ _ _ Hsig Hfind)
      as (p & s' & Hrun & Hderef & _).
    split.
    + intros v Hw Hov. exists p, s', (SigImageConfig.setVersion v c).
      rewrite Hw in Hderef. unfold overridden in Hderef.
      rewrite Hov in Hderef. by repeat split.
    + intros Hw. exists p, s'. by rewrite Hw in Hderef.
Qed.

(** The entry of a distro in the map of [GetDistroSigImageConfig], by the
    position of the last loop that has it: the entries of the first loop
    (the Windows sub-catalog) are stored as they are, those of the four
    later loops with the override. *)
Lemma GetDistroSigImageConfig_last_in_order agentBaker (sigConfig : SIGConfigT)
    (envInfo : EnvironmentInfo.t) s sigEnv allDistros distro :
  sigEnvironmentAt sigConfig envInfo = inl sigEnv →
  (GetDistroSigImageConfig agentBaker sigConfig envInfo s).1
    = Returns (Some allDistros) None →
  (∀ pre r post c,
     mergeOrder sigEnv = pre ++ r :: post →
     Store.mapAt s r !! distro = Some c →
     absentFrom s distro post →
     allDistros !! distro
     = Some (match pre with
             | [] => c
             | _ :: _ => overridden (overridesOfEnvironment agentBaker envInfo) distro c
             end))
  ∧ (absentFrom s distro (mergeOrder sigEnv) → allDistros !! distro = None).
Proof.
  intros Hsig Hrun.
  destruct (GetDistroSigImageConfig_resolved agentBaker _ _ s _ Hsig)
    as (m & Hm & Hlookup).
  rewrite Hm in Hrun. simpl in Hrun. injection Hrun as <-.
  split.
  - intros pre r post c Hsplit Hr Hpost.
    rewrite Hlookup. cbv zeta. unfold mergeOrder in Hsplit.
    unfold absentFrom in Hpost.
    repeat (destruct pre as [|? pre]; simpl in Hsplit;
            [injection Hsplit as <- <-;
             repeat (match goal with
                     | H : Forall _ (_ :: _) |- _ =>
                         apply Forall_cons in H as [? H]
                     end);
             repeat (match goal with
                     | H : Store.mapAt _ _ !! _ = _ |- _ => rewrite H; clear H
                     end);
             reflexivity
            | injection Hsplit as <- Hsplit]).
    by destruct pre.
  - intros Habs. rewrite Hlookup. cbv zeta. unfold mergeOrder, absentFrom in Habs.
    repeat (match goal with
            | H : Forall _ (_ :: _) |- _ => apply Forall_cons in H as [? H]
            end).
    repeat (match goal with
            | H : Store.mapAt _ _ !! _ = _ |- _ => rewrite H; clear H
            end).
    reflexivity.
Qed.

(** C4, as the code has it.  [GetDistroSigImageConfig] merges the five
    sub-catalogs in the order Windows, CBLMariner, AzureLinux, Ubuntu,
    UbuntuEdgeZone, a later loop overwriting the entries of the earlier ones:
    a distro maps to the entry of the last sub-catalog of this order that
    has it (with the override when that is not the Windows one), and a
    distro in no sub-catalog is not in the result. *)
Theorem GetDistroSigImageConfig_merge_order agentBaker (sigConfig : SIGConfigT)
    (envInfo : EnvironmentInfo.t) s sigEnv :
  sigEnvironmentAt sigConfig envInfo = inl sigEnv →
  ∃ allDistros : gmap Distro SigImageConfig.t,
    GetDistroSigImageConfig agentBaker sigConfig envInfo s
      = (Returns (Some allDistros) None, s)
    ∧ ∀ distro,
        (∀ pre r post c,
           mergeOrder sigEnv = pre ++ r :: post →
           Store.mapAt s r !! distro = Some c →
           absentFrom s distro post →
           allDistros !! distro
           = Some (match pre with
                   | [] => c
                   | _ :: _ =>
                       overridden (overridesOfEnvironment agentBaker envInfo) distro c
                   end))
        ∧ (absentFrom s distro (mergeOrder sigEnv) → allDistros !! distro = None).
Proof.
  intros Hsig.
  destruct (GetDistroSigImageConfig_resolved agentBaker _ _ s _ Hsig)
    as (m & Hm & _).
  exists m. split; [exact Hm |]. intros distro.
  apply (GetDistroSigImageConfig_last_in_order agentBaker sigConfig envInfo s);
    [exact Hsig | by rewrite Hm].
Qed.

Lemma GetDistroSigImageConfig_overridden agentBaker (sigConfig : SIGConfigT)
    (envInfo : EnvironmentInfo.t) s sigEnv allDistros distro :
  sigEnvironmentAt sigConfig envInfo = inl sigEnv →
  (GetDistroSigImageConfig agentBaker sigConfig envInfo s).1
    = Returns (Some allDistros) None →
  (∀ imageVersion,
     overridesOfEnvironment agentBaker envInfo !! distro = Some imageVersion →
     (∃ r, r ∈ overriddenFamilies sigEnv ∧ is_Some (Store.mapAt s r !! distro)) →
     ∃ c, allDistros !! distro = Some c ∧ SigImageConfig.Version c = imageVersion)
  ∧ (∀ c,
       Store.mapAt s (SIGAzureEnvironmentSpecConfig.SigWindowsImageConfig sigEnv)
         !! distro = Some c →
       absentFrom s distro (overriddenFamilies sigEnv) →
       allDistros !! distro = Some c).
Proof.
  intros Hsig Hrun.
  destruct (GetDistroSigImageConfig_resolved agentBaker _ _ s _ Hsig)
    as (m & Hm & Hlookup).
  rewrite Hm in Hrun. simpl in Hrun. injection Hrun as <-.
  split.
  - intros v Hov (r & Hr & Hsome).
    rewrite Hlookup. cbv zeta. unfold overridden. rewrite Hov.
    unfold overriddenFamilies in Hr.
    repeat (match goal with
            | |- context [match Store.mapAt s ?a !! distro with _ => _ end] =>
                let E := fresh "E" in
                destruct (Store.mapAt s a !! distro) eqn:E; [by eexists |]
            end).
    exfalso. destruct Hsome as [c Hc].
    repeat (apply elem_of_cons in Hr as [-> | Hr]; [congruence |]).
    by apply elem_of_nil in Hr.
  - intros c Hw Habs. rewrite Hlookup. cbv zeta.
    unfold overriddenFamilies, absentFrom in Habs.
    repeat (match goal with
            | H : Forall _ (_ :: _) |- _ => apply Forall_cons in H as [? H]
            end).
    repeat (match goal with
            | H : Store.mapAt _ _ !! _ = None |- _ => rewrite H; clear H
            end).
    exact Hw.
Qed.

(** C3, as the code has it.  Each operation has its own gate for the
    override.  [GetLatestSigImageConfig]: for a distro that is not a Windows
    distro and whose key is in the override mapping, the version returned is
    the override value; for a Windows distro it is the catalog entry.
    [GetNodeBootstrapping], when the SIG lookup found an entry: for a profile
    that is not flagged Windows and a distro whose key is in the override
    mapping, the version returned is the override value; for a profile
    flagged Windows it is the catalog entry.  [GetDistroSigImageConfig]: a
    distro with an override that is in one of the four sub-catalogs other
    than the Windows one maps to an entry with the override value; a distro
    that is in the Windows sub-catalog only maps to the catalog entry. *)
Theorem override_applied_per_operation agentBaker :
  (∀ (sigConfig : SIGConfigT) distro (envInfo : EnvironmentInfo.t) s sigEnv c,
     sigEnvironmentAt sigConfig envInfo = inl sigEnv →
     firstMatch s sigEnv distro = Some c →
     (∀ imageVersion,
        IsWindowsDistro distro = false →
        overridesOfEnvironment agentBaker envInfo !! distro = Some imageVersion →
        ∃ p s' c',
          GetLatestSigImageConfig agentBaker sigConfig distro envInfo s
            = (Returns (Some p) None, s')
          ∧ Store.deref s' p = Some c'
          ∧ SigImageConfig.Version c' = imageVersion)
     ∧ (IsWindowsDistro distro = true →
        ∃ p s',
          GetLatestSigImageConfig agentBaker sigConfig distro envInfo s
            = (Returns (Some p) None, s')
          ∧ Store.deref s' p = Some c))
  ∧ (∀ config s osImageConfigMap sigEnv c,
       isCustomized (distroOf (validated config)) = false →
       Store.AzureCloudToOSImageMap s !! cloudNameOf (validated config)
         = Some osImageConfigMap →
       sigEnvironmentOf (validated config) = inl sigEnv →
       firstMatch s sigEnv (distroOf (validated config)) = Some c →
       (∀ imageVersion,
          profileIsWindows (validated config) = false →
          overridesOfConfig agentBaker (validated config)
            !! distroOf (validated config) = Some imageVersion →
          ∃ nodeBootstrapping p s' c',
            GetNodeBootstrapping agentBaker config s
              = (Returns (Some nodeBootstrapping) None, s')
            ∧ NodeBootstrapping.SigImageConfig nodeBootstrapping = Some p
            ∧ Store.deref s' p = Some c'
            ∧ SigImageConfig.Version c' = imageVersion)
       ∧ (profileIsWindows (validated config) = true →
          ∃ nodeBootstrapping p s',
            GetNodeBootstrapping agentBaker config s
              = (Returns (Some nodeBootstrapping) None, s')
            ∧ NodeBootstrapping.SigImageConfig nodeBootstrapping = Some p
            ∧ Store.deref s' p = Some c))
  ∧ (∀ (sigConfig : SIGConfigT) (envInfo : EnvironmentInfo.t) s sigEnv,
       sigEnvironmentAt sigConfig envInfo = inl sigEnv →
       ∃ allDistros : gmap Distro SigImageConfig.t,
         GetDistroSigImageConfig agentBaker sigConfig envInfo s
           = (Returns (Some allDistros) None, s)
         ∧ ∀ distro,
             (∀ imageVersion,
                overridesOfEnvironment agentBaker envInfo !! distro
                  = Some imageVersion →
                (∃ r, r ∈ overriddenFamilies sigEnv
                      ∧ is_Some (Store.mapAt s r !! distro)) →
                ∃ c, allDistros !! distro = Some c
                     ∧ SigImageConfig.Version c = imageVersion)
             ∧ (∀ c,
                  Store.mapAt s
                    (SIGAzureEnvironmentSpecConfig.SigWindowsImageConfig sigEnv)
                    !! distro = Some c →
                  absentFrom s distro (overriddenFamilies sigEnv) →
                  allDistros !! distro = Some c)).
Proof.
  split; [| split].
  - intros sigConfig distro envInfo s sigEnv c Hsig Hfind.
    destruct (GetLatestSigImageConfig_version agentBaker _ _ _ _ _ _ Hsig Hfind)
      as (p & s' & Hrun & Hderef & _).
    split.
    + intros v Hw Hov. exists p, s', (SigImageConfig.setVersion v c).
      rewrite Hw in Hderef. unfold overridden in Hderef.
      by rewrite Hov in Hderef.
    + intros Hw. exists p, s'. by rewrite Hw in Hderef.
  - intros config s osImageConfigMap sigEnv c Hc Hcloud Hsig Hfind.
    destruct (GetNodeBootstrapping_version agentBaker _ _ _ _ _ Hc Hcloud Hsig Hfind)
      as (nb & p & s' & Hrun & Hp & Hderef).
    split.
    + intros v Hflag Hov. exists nb, p, s', (SigImageConfig.setVersion v c).
      rewrite Hflag in Hderef. unfold overridden in Hderef.
      by rewrite Hov in Hderef.
    + intros Hflag. exists nb, p, s'. by rewrite Hflag in Hderef.
  - intros sigConfig envInfo s sigEnv Hsig.
    destruct (GetDistroSigImageConfig_resolved agentBaker _ _ s _ Hsig)
      as (m & Hm & _).
    exists m. split; [exact Hm |]. intros distro.
    apply (GetDistroSigImageConfig_overridden agentBaker sigConfig envInfo s);
      [exact Hsig | by rewrite Hm].
Qed.

(** C9. None of the three operations changes the catalogs of the store,
    neither the SIG sub-catalogs nor the legacy catalog; so a lookup after
    the operation finds what a lookup before it found.  In particular, when
    [GetLatestSigImageConfig] has written the override version behind the
    pointer it returns, a new lookup of the same distro in the same
    environment still finds the catalog entry with its own version. *)
Theorem override_leaves_catalogs agentBaker config (sigConfig : SIGConfigT)
    distro (envInfo : EnvironmentInfo.t) s :
  catalogs (GetNodeBootstrapping agentBaker config s).2 = catalogs s
  ∧ catalogs (GetLatestSigImageConfig agentBaker sigConfig distro envInfo s).2
    = catalogs s
  ∧ catalogs (GetDistroSigImageConfig agentBaker sigConfig envInfo s).2
    = catalogs s
  ∧ (∀ s' sigEnv distro',
       s' = (GetNodeBootstrapping agentBaker config s).2
       ∨ s' = (GetLatestSigImageConfig agentBaker sigConfig distro envInfo s).2
       ∨ s' = (GetDistroSigImageConfig agentBaker sigConfig envInfo s).2 →
       lookupEntry sigEnv distro' s' = lookupEntry sigEnv distro' s)
  ∧ (∀ sigEnv c imageVersion,
       sigEnvironmentAt sigConfig envInfo = inl sigEnv →
       firstMatch s sigEnv distro = Some c →
       IsWindowsDistro distro = false →
       overridesOfEnvironment agentBaker envInfo !! distro = Some imageVersion →
       ∃ p s',
         GetLatestSigImageConfig agentBaker sigConfig distro envInfo s
           = (Returns (Some p) None, s')
         ∧ Store.deref s' p = Some (SigImageConfig.setVersion imageVersion c)
         ∧ lookupEntry sigEnv distro s' = Some c).
Proof.
  pose proof (GetNodeBootstrapping_catalogs agentBaker config s) as H1.
  pose proof (GetLatestSigImageConfig_catalogs agentBaker sigConfig distro envInfo s) as H2.
  pose proof (GetDistroSigImageConfig_store agentBaker sigConfig envInfo s) as H3.
  repeat split; try done.
  - by rewrite H3.
  - intros s' sigEnv distro' Hs'. rewrite !lookupEntry_firstMatch.
    apply firstMatch_catalogs.
    destruct Hs' as [-> | [-> | ->]]; [done | done | by rewrite H3].
  - intros sigEnv c v Hsig Hfind Hw Hov.
    destruct (GetLatestSigImageConfig_version agentBaker _ _ _ _ _ _ Hsig Hfind)
      as (p & s' & Hrun & Hderef & Hcat).
    exists p, s'. split; [done |]. split.
    + rewrite Hw in Hderef. unfold overridden in Hderef.
      by rewrite Hov in Hderef.
    + by rewrite lookupEntry_firstMatch, (firstMatch_catalogs _ _ _ _ Hcat).
Qed.

(** When only the legacy lookup has an entry, the profile is not flagged
    Windows and the override mapping has the distro's key, the assignment
    [nodeBootstrapping.SigImageConfig.Version = imageVersion] goes through a
    [nil] pointer. *)
Lemma GetNodeBootstrapping_panics agentBaker config s osImageConfigMap sigEnv :
  isCustomized (distroOf (validated config)) = false →
  Store.AzureCloudToOSImageMap s !! cloudNameOf (validated config)
    = Some osImageConfigMap →
  sigEnvironmentOf (validated config) = inl sigEnv →
  ((GetNodeBootstrapping agentBaker config s).1 = Panics
   ↔ firstMatch s sigEnv (distroOf (validated config)) = None
     ∧ is_Some (osImageConfigMap !! distroOf (validated config))
     ∧ profileIsWindows (validated config) = false
     ∧ is_Some (overridesOfConfig agentBaker (validated config)
                  !! distroOf (validated config))).
Proof.
  intros Hc Hcloud Hsig.
  rewrite (GetNodeBootstrapping_resolved _ _ _ _ _ Hc Hcloud Hsig). cbv zeta.
  destruct (firstMatch s sigEnv (distroOf (validated config))) as [c|];
    destruct (osImageConfigMap !! distroOf (validated config)) as [o|];
    destruct (profileIsWindows (validated config));
    simpl; try (split; [done | by intros ([=] & _)]);
    try (split; [done | by intros (_ & [? [=]] & _)]);
    try (split; [done | by intros (_ & _ & [=] & _)]).
  destruct (overridesOfConfig agentBaker (validated config)
              !! distroOf (validated config)) as [v|] eqn:Hov; simpl.
  - split; [by eauto | done].
  - split; [done | by intros (_ & _ & _ & [? [=]])].
Qed.

End ResolutionProperties.

(** ** [GetCachedVersionsOnVHD] *)

(** C8. [GetCachedVersionsOnVHD] returns an error exactly when one of the
    three inventories is [nil]; the error it returns names an inventory that
    is [nil]; and when the three are set, it returns, with no error, the
    snapshot whose three fields are the three references themselves. *)
Theorem GetCachedVersionsOnVHD_snapshot (c : cache.t) :
  ((∃ err, GetCachedVersionsOnVHD c = Returns None (Some err))
   ↔ cache.FromManifest c = None
     ∨ cache.FromComponentContainerImages c = None
     ∨ cache.FromComponentDownloadedFiles c = None)
  ∧ (∀ err,
       GetCachedVersionsOnVHD c = Returns None (Some err) →
       (err = ManifestNotAvailable ∧ cache.FromManifest c = None)
       ∨ (err = ContainerImagesNotAvailable
          ∧ cache.FromComponentContainerImages c = None)
       ∨ (err = DownloadedFilesNotAvailable
          ∧ cache.FromComponentDownloadedFiles c = None))
  ∧ (∀ manifest images files,
       cache.FromManifest c = Some manifest →
       cache.FromComponentContainerImages c = Some images →
       cache.FromComponentDownloadedFiles c = Some files →
       GetCachedVersionsOnVHD c
       = Returns
           (Some {| CachedOnVHD.FromManifest := Some manifest;
                    CachedOnVHD.FromComponentContainerImages := Some images;
                    CachedOnVHD.FromComponentDownloadedFiles := Some files |})
           None).
Proof.
  unfold GetCachedVersionsOnVHD.
  destruct c as [[m|] [i|] [f|]]; simpl; repeat split;
    try (intros [err [=]]); try (intros [[=] | [[=] | [=]]]);
    try (intros err [= <-]); try (intros err [=]);
    try (intros ? ? ? [= <-] [= <-] [= <-]); try (intros ? ? ? [=]);
    try (intros ? ? ? _ [=]); try (intros ? ? ? _ _ [=]);
    eauto 10.
Qed.

(** ** Errors, results and the variables of the store *)

Section FurtherProperties.
Context {SIGConfigT RestT EntityT TogglesT : Type}.
Context `{!DatamodelPkg SIGConfigT}.
Context `{!TogglesPkg SIGConfigT RestT EntityT TogglesT}.
Context `{!AgentPkg SIGConfigT RestT}.
Implicit Types (agentBaker : agentBakerImpl.t TogglesT).
Implicit Types (config : NodeBootstrappingConfiguration.t SIGConfigT RestT).
Implicit Types (sigConfig : SIGConfigT) (envInfo : EnvironmentInfo.t).
Implicit Types (s : Store.t) (distro : Distro).

Lemma GetLatestSigImageConfig_unresolved agentBaker sigConfig distro envInfo s err :
  sigEnvironmentAt sigConfig envInfo = inr err →
  GetLatestSigImageConfig agentBaker sigConfig distro envInfo s
  = (Returns None (Some err), s).
Proof.
  intros Hsig. unfold GetLatestSigImageConfig.
  fold (sigEnvironmentAt sigConfig envInfo). by rewrite Hsig.
Qed.

Lemma GetLatestSigImageConfig_inv agentBaker sigConfig distro envInfo s p s' :
  GetLatestSigImageConfig agentBaker sigConfig distro envInfo s
    = (Returns (Some p) None, s') →
  ∃ sigEnv c,
    sigEnvironmentAt sigConfig envInfo = inl sigEnv
    ∧ firstMatch s sigEnv distro = Some c.
Proof.
  destruct (sigEnvironmentAt sigConfig envInfo) as [sigEnv|err] eqn:Hsig.
  - rewrite (GetLatestSigImageConfig_resolved _ _ _ _ _ _ Hsig).
    destruct (firstMatch s sigEnv distro) as [c|] eqn:Hfind; [| discriminate].
    intros _. by exists sigEnv, c.
  - by rewrite (GetLatestSigImageConfig_unresolved _ _ _ _ _ _ Hsig).
Qed.

Lemma GetNodeBootstrapping_unresolved agentBaker config s osImageConfigMap err :
  isCustomized (distroOf (validated config)) = false →
  Store.AzureCloudToOSImageMap s !! cloudNameOf (validated config)
    = Some osImageConfigMap →
  sigEnvironmentOf (validated config) = inr err →
  GetNodeBootstrapping agentBaker config s = (Returns None (Some err), s).
Proof.
  intros Hc Hcloud Hsig. unfold GetNodeBootstrapping.
  fold (distroOf (validated config)). rewrite Hc.
  fold (cloudNameOf (validated config)). rewrite Hcloud.
  fold (sigEnvironmentOf (validated config)). by rewrite Hsig.
Qed.

(** The SIG environment is resolved after the cloud is found and before the
    SIG lookup: when [GetSIGAzureCloudSpecConfig] fails, its error is
    returned as it is with a [nil] artifact and an unchanged store, also
    when the legacy catalog of the cloud has an entry for the distro. *)
Theorem GetNodeBootstrapping_sig_failure agentBaker config s osImageConfigMap err :
  isCustomized (distroOf (validated config)) = false →
  Store.AzureCloudToOSImageMap s !! cloudNameOf (validated config)
    = Some osImageConfigMap →
  sigEnvironmentOf (validated config) = inr err →
  GetNodeBootstrapping agentBaker config s = (Returns None (Some err), s).
Proof. apply GetNodeBootstrapping_unresolved. Qed.

(** The two errors of [GetLatestSigImageConfig]: the error of
    [GetSIGAzureCloudSpecConfig] is returned as it is; with a resolved
    environment, the error "can't find SIG image config for distro ... in
    region ..." is returned exactly when the distro is in none of the five
    sub-catalogs.  In both cases the pointer is [nil] and the store is
    unchanged. *)
Theorem GetLatestSigImageConfig_errors agentBaker sigConfig distro envInfo s :
  (∀ err,
     sigEnvironmentAt sigConfig envInfo = inr err →
     GetLatestSigImageConfig agentBaker sigConfig distro envInfo s
     = (Returns None (Some err), s))
  ∧ (∀ sigEnv,
       sigEnvironmentAt sigConfig envInfo = inl sigEnv →
       (absentFrom s distro (familyOrder sigEnv) →
        GetLatestSigImageConfig agentBaker sigConfig distro envInfo s
        = (Returns None
             (Some (SigImageNotFound distro (EnvironmentInfo.Region envInfo))),
           s))
       ∧ (∀ err,
            (GetLatestSigImageConfig agentBaker sigConfig distro envInfo s).1
              = Returns None (Some err) →
            absentFrom s distro (familyOrder sigEnv)
            ∧ err = SigImageNotFound distro (EnvironmentInfo.Region envInfo))).
Proof.
  split; [apply GetLatestSigImageConfig_unresolved |].
  intros sigEnv Hsig.
  rewrite (GetLatestSigImageConfig_resolved _ _ _ _ _ _ Hsig).
  destruct (firstMatch s sigEnv distro) as [c|] eqn:Hfind; simpl.
  - split; [| intros err Herr; discriminate Herr].
    intros Habs. apply firstMatch_None in Habs. congruence.
  - apply firstMatch_None in Hfind. split; [done |].
    intros err Herr. injection Herr as <-. by split.
Qed.

(** [GetDistroSigImageConfig] fails exactly when
    [GetSIGAzureCloudSpecConfig] does; the error it returns wraps that error
    ([errors.Unwrap] gives it back) under the message "failed to get sig
    image config: ...", the map is [nil] and the store is unchanged. *)
Theorem GetDistroSigImageConfig_failure agentBaker sigConfig envInfo s :
  (∀ err,
     sigEnvironmentAt sigConfig envInfo = inr err →
     ∃ wrapped,
       GetDistroSigImageConfig agentBaker sigConfig envInfo s
         = (Returns None (Some wrapped), s)
       ∧ Unwrap wrapped = Some err
       ∧ Error wrapped = ("failed to get sig image config: " ++ Error err)%string)
  ∧ (∀ val wrapped,
       (GetDistroSigImageConfig agentBaker sigConfig envInfo s).1
         = Returns val (Some wrapped) →
       ∃ err, sigEnvironmentAt sigConfig envInfo = inr err
              ∧ Unwrap wrapped = Some err).
Proof.
  unfold GetDistroSigImageConfig.
  fold (sigEnvironmentAt sigConfig envInfo).
  destruct (sigEnvironmentAt sigConfig envInfo) as [sigEnv|err0]; simpl.
  - split; [intros err [=] | intros val wrapped [=]].
  - split.
    + intros err [= <-]. by eexists.
    + intros val wrapped [= <- <-]. by eexists.
Qed.

Lemma sigVars_storeVersion_new (c : SigImageConfig.t) (v : string) s :
  Store.sigVars (Store.storeVersion (Store.new c s).1 v (Store.new c s).2)
  = Store.sigVars s ++ [SigImageConfig.setVersion v c].
Proof.
  unfold Store.storeVersion, Store.new; simpl.
  rewrite <- (Nat.add_0_r (length (Store.sigVars s))).
  by rewrite alter_app_r.
Qed.

(** The pointer [GetLatestSigImageConfig] returns is the address of one new
    variable; the variables that were there are left as they were. *)
Lemma GetLatestSigImageConfig_vars agentBaker sigConfig distro envInfo s p s' :
  GetLatestSigImageConfig agentBaker sigConfig distro envInfo s
    = (Returns (Some p) None, s') →
  p = length (Store.sigVars s)
  ∧ ∃ c, Store.sigVars s' = Store.sigVars s ++ [c].
Proof.
  intros Hrun.
  destruct (GetLatestSigImageConfig_inv _ _ _ _ _ _ _ Hrun)
    as (sigEnv & c & Hsig & Hfind).
  rewrite (GetLatestSigImageConfig_resolved _ _ _ _ _ _ Hsig), Hfind in Hrun.
  simpl in Hrun. injection Hrun as <- <-. split; [done |].
  destruct (IsWindowsDistro distro); [by eexists |].
  destruct (overridesOfEnvironment agentBaker envInfo !! distro) as [v|];
    [| by eexists].
  eexists. apply (sigVars_storeVersion_new c v s).
Qed.

(** The keys of the map [GetDistroSigImageConfig] returns are the keys of
    the five sub-catalogs together: every distro of every sub-catalog is in
    the result, and nothing else is. *)
Theorem GetDistroSigImageConfig_dom agentBaker sigConfig envInfo s sigEnv :
  sigEnvironmentAt sigConfig envInfo = inl sigEnv →
  ∃ allDistros : gmap Distro SigImageConfig.t,
    GetDistroSigImageConfig agentBaker sigConfig envInfo s
      = (Returns (Some allDistros) None, s)
    ∧ dom allDistros
      = dom (Store.mapAt s (SIGAzureEnvironmentSpecConfig.SigWindowsImageConfig sigEnv))
        ∪ dom (Store.mapAt s (SIGAzureEnvironmentSpecConfig.SigCBLMarinerImageConfig sigEnv))
        ∪ dom (Store.mapAt s (SIGAzureEnvironmentSpecConfig.SigAzureLinuxImageConfig sigEnv))
        ∪ dom (Store.mapAt s (SIGAzureEnvironmentSpecConfig.SigUbuntuImageConfig sigEnv))
        ∪ dom (Store.mapAt s (SIGAzureEnvironmentSpecConfig.SigUbuntuEdgeZoneImageConfig sigEnv)).
Proof.
  intros Hsig.
  destruct (GetDistroSigImageConfig_resolved agentBaker _ _ s _ Hsig)
    as (m & Hm & Hlookup).
  exists m. split; [exact Hm |].
  apply set_eq. intros distro.
  rewrite !elem_of_union, !elem_of_dom, Hlookup. cbv zeta.
  repeat (match goal with
          | |- context [match Store.mapAt s ?a !! distro with _ => _ end] =>
              destruct (Store.mapAt s a !! distro)
          end);
    rewrite !is_Some_alt; tauto.
Qed.

(** When the distro is in exactly one sub-catalog, and is classified as a
    Windows distro exactly when that is the Windows sub-catalog, the full
    catalog and the single lookup agree: the entry of the distro in the map
    of [GetDistroSigImageConfig] is what the pointer of
    [GetLatestSigImageConfig] points to. *)
Theorem GetDistroSigImageConfig_agrees_with_latest agentBaker sigConfig distro
    envInfo s sigEnv pre r post c :
  sigEnvironmentAt sigConfig envInfo = inl sigEnv →
  familyOrder sigEnv = pre ++ r :: post →
  absentFrom s distro pre →
  absentFrom s distro post →
  Store.mapAt s r !! distro = Some c →
  (IsWindowsDistro distro = true
   ↔ is_Some (Store.mapAt s (SIGAzureEnvironmentSpecConfig.SigWindowsImageConfig sigEnv)
                !! distro)) →
  ∃ (allDistros : gmap Distro SigImageConfig.t) p s',
    GetDistroSigImageConfig agentBaker sigConfig envInfo s
      = (Returns (Some allDistros) None, s)
    ∧ GetLatestSigImageConfig agentBaker sigConfig distro envInfo s
      = (Returns (Some p) None, s')
    ∧ allDistros !! distro = Store.deref s' p.
Proof.
  intros Hsig Hsplit Hpre Hpost Hr Hwin.
  pose proof (firstMatch_first _ _ _ _ _ _ _ Hsplit Hpre Hr) as Hfind.
  destruct (GetLatestSigImageConfig_version agentBaker _ _ _ _ _ _ Hsig Hfind)
    as (p & s' & Hrun & Hderef & _).
  destruct (GetDistroSigImageConfig_resolved agentBaker _ _ s _ Hsig)
    as (m & Hm & Hlookup).
  exists m, p, s'. split; [exact Hm |]. split; [exact Hrun |].
  rewrite Hderef, Hlookup. cbv zeta. clear Hderef Hlookup Hrun Hm Hfind.
  unfold familyOrder in Hsplit. unfold absentFrom in Hpre, Hpost.
  repeat (destruct pre as [|? pre]; simpl in Hsplit;
          [injection Hsplit as <- <-;
           repeat (match goal with
                   | H : Forall _ (_ :: _) |- _ => apply Forall_cons in H as [? H]
                   end);
           repeat (match goal with
                   | H : Store.mapAt _ _ !! _ = _ |- _ =>
                       try rewrite H in Hwin; try rewrite H; clear H
                   end);
           destruct (IsWindowsDistro distro);
           first [ reflexivity
                 | exfalso; destruct Hwin as [Hw1 Hw2];
                   first [ by destruct (Hw1 eq_refl)
                         | by discriminate Hw2; eauto ] ]
          | injection Hsplit as <- Hsplit]).
  by destruct pre.
Qed.

(** What a returned artifact holds.  Payload and command are those of the
    validated configuration; for a distro that is not customized, the cloud
    is known, the SIG environment is resolved, [OSImageConfig] is exactly
    the lookup of the distro in the legacy catalog of the cloud ([nil] when
    it has no entry), [SigImageConfig] is set exactly when some sub-catalog
    has the distro, and at least one of the two is set. *)
Theorem GetNodeBootstrapping_artifact agentBaker config s nodeBootstrapping s' :
  GetNodeBootstrapping agentBaker config s
    = (Returns (Some nodeBootstrapping) None, s') →
  NodeBootstrapping.CustomData nodeBootstrapping
    = getNodeBootstrappingPayload (validated config)
  ∧ NodeBootstrapping.CSE nodeBootstrapping
    = getNodeBootstrappingCmd (validated config)
  ∧ (isCustomized (distroOf (validated config)) = false →
     ∃ osImageConfigMap sigEnv,
       Store.AzureCloudToOSImageMap s !! cloudNameOf (validated config)
         = Some osImageConfigMap
       ∧ sigEnvironmentOf (validated config) = inl sigEnv
       ∧ NodeBootstrapping.OSImageConfig nodeBootstrapping
         = osImageConfigMap !! distroOf (validated config)
       ∧ (is_Some (NodeBootstrapping.SigImageConfig nodeBootstrapping)
          ↔ is_Some (firstMatch s sigEnv (distroOf (validated config))))
       ∧ (is_Some (NodeBootstrapping.OSImageConfig nodeBootstrapping)
          ∨ is_Some (NodeBootstrapping.SigImageConfig nodeBootstrapping))).
Proof.
  intros Hrun.
  destruct (isCustomized (distroOf (validated config))) eqn:Hc.
  { rewrite (GetNodeBootstrapping_customized _ _ _ Hc) in Hrun.
    injection Hrun as <- <-. by repeat split. }
  destruct (Store.AzureCloudToOSImageMap s !! cloudNameOf (validated config))
    as [osImageConfigMap|] eqn:Hcloud;
    [| by rewrite (GetNodeBootstrapping_no_cloud _ _ _ Hc Hcloud) in Hrun].
  destruct (sigEnvironmentOf (validated config)) as [sigEnv|err] eqn:Hsig;
    [| by rewrite (GetNodeBootstrapping_unresolved _ _ _ _ _ Hc Hcloud Hsig) in Hrun].
  rewrite (GetNodeBootstrapping_resolved _ _ _ _ _ Hc Hcloud Hsig) in Hrun.
  cbv zeta in Hrun.
  destruct (firstMatch s sigEnv (distroOf (validated config))) as [c|] eqn:Hfind;
    destruct (osImageConfigMap !! distroOf (validated config)) as [o|] eqn:Hleg;
    simpl in Hrun; try discriminate Hrun.
  - injection Hrun as <- <-. split; [done |]. split; [done |]. intros _.
    exists osImageConfigMap, sigEnv. rewrite Hfind, Hleg. simpl.
    repeat split; eauto.
  - injection Hrun as <- <-. split; [done |]. split; [done |]. intros _.
    exists osImageConfigMap, sigEnv. rewrite Hfind, Hleg. simpl.
    repeat split; eauto.
  - destruct (negb (profileIsWindows (validated config))
              && bool_decide (is_Some (overridesOfConfig agentBaker (validated config)
                                         !! distroOf (validated config))));
      [discriminate Hrun |].
    injection Hrun as <- <-. split; [done |]. split; [done |]. intros _.
    exists osImageConfigMap, sigEnv. rewrite Hfind, Hleg. simpl.
    repeat split; eauto; by intros [? [=]].
Qed.

(** When the override mapping has no key for the distro, the override step
    does nothing: every request whose base resolution succeeded returns the
    artifact, with the legacy entry and a pointer to a copy of the catalog
    entry as the lookups found them. *)
Theorem GetNodeBootstrapping_no_override agentBaker config s osImageConfigMap sigEnv :
  isCustomized (distroOf (validated config)) = false →
  Store.AzureCloudToOSImageMap s !! cloudNameOf (validated config)
    = Some osImageConfigMap →
  sigEnvironmentOf (validated config) = inl sigEnv →
  overridesOfConfig agentBaker (validated config) !! distroOf (validated config)
    = None →
  is_Some (osImageConfigMap !! distroOf (validated config))
  ∨ is_Some (firstMatch s sigEnv (distroOf (validated config))) →
  ∃ nodeBootstrapping s',
    GetNodeBootstrapping agentBaker config s
      = (Returns (Some nodeBootstrapping) None, s')
    ∧ NodeBootstrapping.OSImageConfig nodeBootstrapping
      = osImageConfigMap !! distroOf (validated config)
    ∧ NodeBootstrapping.SigImageConfig nodeBootstrapping ≫= Store.deref s'
      = firstMatch s sigEnv (distroOf (validated config)).
Proof.
  intros Hc Hcloud Hsig Hov Hsome.
  rewrite (GetNodeBootstrapping_resolved _ _ _ _ _ Hc Hcloud Hsig).
  cbv zeta. rewrite Hov.
  destruct (firstMatch s sigEnv (distroOf (validated config))) as [c|];
    destruct (osImageConfigMap !! distroOf (validated config)) as [o|]; simpl.
  - eexists _, _. split; [reflexivity |]. split; [reflexivity |]. simpl.
    pose proof (deref_new c s) as Hnew. simpl in Hnew.
    by destruct (profileIsWindows (validated config)).
  - eexists _, _. split; [reflexivity |]. split; [reflexivity |]. simpl.
    pose proof (deref_new c s) as Hnew. simpl in Hnew.
    by destruct (profileIsWindows (validated config)).
  - rewrite andb_false_r. by eexists _, _.
  - by destruct Hsome as [[? [=]] | [? [=]]].
Qed.

(** For a profile flagged Windows the toggles are never consulted: the
    result is the same for every agent baker, and the call does not panic
    (also with a legacy entry only and an override for the distro). *)
Theorem GetNodeBootstrapping_windows_profile agentBaker config s :
  profileIsWindows (validated config) = true →
  (∀ agentBaker',
     GetNodeBootstrapping agentBaker' config s
     = GetNodeBootstrapping agentBaker config s)
  ∧ ∃ val err, (GetNodeBootstrapping agentBaker config s).1 = Returns val err.
Proof.
  intros Hflag.
  destruct (isCustomized (distroOf (validated config))) eqn:Hc.
  { split; [intros ab' |]; rewrite !(GetNodeBootstrapping_customized _ _ _ Hc);
      eauto. }
  destruct (Store.AzureCloudToOSImageMap s !! cloudNameOf (validated config))
    as [osImageConfigMap|] eqn:Hcloud;
    [| split; [intros ab' |];
       rewrite !(GetNodeBootstrapping_no_cloud _ _ _ Hc Hcloud); eauto].
  destruct (sigEnvironmentOf (validated config)) as [sigEnv|err] eqn:Hsig;
    [| split; [intros ab' |];
       rewrite !(GetNodeBootstrapping_unresolved _ _ _ _ _ Hc Hcloud Hsig);
       eauto].
  split; [intros ab' |];
    rewrite !(GetNodeBootstrapping_resolved _ _ _ _ _ Hc Hcloud Hsig);
    cbv zeta; rewrite !Hflag; simpl; [reflexivity |].
  destruct (firstMatch s sigEnv (distroOf (validated config)));
    destruct (osImageConfigMap !! distroOf (validated config)); simpl; eauto.
Qed.

Lemma variablesKept_refl s : variablesKept s s.
Proof. exists []. split; [by rewrite app_nil_r | simpl; lia]. Qed.

Lemma variablesKept_new (c : SigImageConfig.t) s :
  variablesKept s (Store.new c s).2.
Proof. exists [c]. split; [done | simpl; lia]. Qed.

Lemma variablesKept_storeVersion_new (c : SigImageConfig.t) (v : string) s :
  variablesKept s (Store.storeVersion (Store.new c s).1 v (Store.new c s).2).
Proof.
  exists [SigImageConfig.setVersion v c].
  split; [apply sigVars_storeVersion_new | simpl; lia].
Qed.

Lemma variablesKept_deref s s' p (c : SigImageConfig.t) :
  variablesKept s s' → Store.deref s p = Some c → Store.deref s' p = Some c.
Proof.
  intros (l & Hl & _) Hp. unfold Store.deref in *. rewrite Hl.
  by apply lookup_app_l_Some.
Qed.

(** No operation touches a variable that an earlier call returned a pointer
    to: after [GetNodeBootstrapping], [GetLatestSigImageConfig] and
    [GetDistroSigImageConfig] the store has the variables it had, with their
    values, and at most one new one; so what an earlier pointer points to is
    not changed by a later call, whatever override that call writes. *)
Theorem earlier_results_kept agentBaker config sigConfig distro envInfo s :
  variablesKept s (GetNodeBootstrapping agentBaker config s).2
  ∧ variablesKept s (GetLatestSigImageConfig agentBaker sigConfig distro envInfo s).2
  ∧ variablesKept s (GetDistroSigImageConfig agentBaker sigConfig envInfo s).2
  ∧ (∀ s' p c,
       s' = (GetNodeBootstrapping agentBaker config s).2
       ∨ s' = (GetLatestSigImageConfig agentBaker sigConfig distro envInfo s).2
       ∨ s' = (GetDistroSigImageConfig agentBaker sigConfig envInfo s).2 →
       Store.deref s p = Some c → Store.deref s' p = Some c).
Proof.
  assert (variablesKept s (GetNodeBootstrapping agentBaker config s).2) as H1.
  { destruct (isCustomized (distroOf (validated config))) eqn:Hc;
      [rewrite (GetNodeBootstrapping_customized _ _ _ Hc);
       apply variablesKept_refl |].
    destruct (Store.AzureCloudToOSImageMap s !! cloudNameOf (validated config))
      as [osImageConfigMap|] eqn:Hcloud;
      [| rewrite (GetNodeBootstrapping_no_cloud _ _ _ Hc Hcloud);
         apply variablesKept_refl].
    destruct (sigEnvironmentOf (validated config)) as [sigEnv|err] eqn:Hsig;
      [| rewrite (GetNodeBootstrapping_unresolved _ _ _ _ _ Hc Hcloud Hsig);
         apply variablesKept_refl].
    rewrite (GetNodeBootstrapping_resolved _ _ _ _ _ Hc Hcloud Hsig).
    cbv zeta.
    destruct (firstMatch s sigEnv (distroOf (validated config))) as [c|];
      destruct (osImageConfigMap !! distroOf (validated config)) as [o|];
      destruct (profileIsWindows (validated config));
      destruct (overridesOfConfig agentBaker (validated config)
                  !! distroOf (validated config)) as [v|];
      simpl;
      first [ apply variablesKept_refl
            | apply (variablesKept_new c s)
            | apply (variablesKept_storeVersion_new c v s) ]. }
  assert (variablesKept s
            (GetLatestSigImageConfig agentBaker sigConfig distro envInfo s).2) as H2.
  { destruct (sigEnvironmentAt sigConfig envInfo) as [sigEnv|err] eqn:Hsig;
      [| rewrite (GetLatestSigImageConfig_unresolved _ _ _ _ _ _ Hsig);
         apply variablesKept_refl].
    rewrite (GetLatestSigImageConfig_resolved _ _ _ _ _ _ Hsig).
    destruct (firstMatch s sigEnv distro) as [c|];
      destruct (IsWindowsDistro distro);
      destruct (overridesOfEnvironment agentBaker envInfo !! distro) as [v|];
      simpl;
      first [ apply variablesKept_refl
            | apply (variablesKept_new c s)
            | apply (variablesKept_storeVersion_new c v s) ]. }
  assert (variablesKept s
            (GetDistroSigImageConfig agentBaker sigConfig envInfo s).2) as H3.
  { rewrite GetDistroSigImageConfig_store. apply variablesKept_refl. }
  repeat split; try done.
  intros s' p c [-> | [-> | ->]] Hp; by eapply variablesKept_deref.
Qed.

(** Asking twice gives the same answer in two variables: a second
    [GetLatestSigImageConfig] for the same selector, distro and environment,
    run on the store the first one left, returns a pointer different from
    the first one to a variable with the same value, and leaves the variable
    of the first call as it was. *)
Theorem GetLatestSigImageConfig_twice agentBaker sigConfig distro envInfo s p1 s1 :
  GetLatestSigImageConfig agentBaker sigConfig distro envInfo s
    = (Returns (Some p1) None, s1) →
  ∃ p2 s2,
    GetLatestSigImageConfig agentBaker sigConfig distro envInfo s1
      = (Returns (Some p2) None, s2)
    ∧ p2 ≠ p1
    ∧ is_Some (Store.deref s1 p1)
    ∧ Store.deref s2 p2 = Store.deref s1 p1
    ∧ Store.deref s2 p1 = Store.deref s1 p1.
Proof.
  intros Hrun.
  destruct (GetLatestSigImageConfig_inv _ _ _ _ _ _ _ Hrun)
    as (sigEnv & c & Hsig & Hfind).
  destruct (GetLatestSigImageConfig_version agentBaker _ _ _ _ _ _ Hsig Hfind)
    as (p & s' & Hrun' & Hderef & Hcat).
  rewrite Hrun in Hrun'. injection Hrun' as <- <-.
  rewrite <- (firstMatch_catalogs _ _ _ _ Hcat) in Hfind.
  destruct (GetLatestSigImageConfig_version agentBaker _ _ _ _ _ _ Hsig Hfind)
    as (p2 & s2 & Hrun2 & Hderef2 & _).
  exists p2, s2. split; [exact Hrun2 |].
  destruct (GetLatestSigImageConfig_vars _ _ _ _ _ _ _ Hrun) as (-> & x & Hx).
  destruct (GetLatestSigImageConfig_vars _ _ _ _ _ _ _ Hrun2) as (-> & x2 & Hx2).
  split; [rewrite Hx, length_app; simpl; lia |].
  split; [by rewrite Hderef |].
  split; [by rewrite Hderef, Hderef2 |].
  rewrite Hderef. unfold Store.deref in *. rewrite Hx2.
  by apply lookup_app_l_Some.
Qed.

(** The results follow the Go convention: whenever one of the four
    operations returns, either the value is set and the error is [nil], or
    the value is [nil] and the error is set; no operation returns a value
    together with an error, nor [nil] with a [nil] error. *)
Theorem value_or_error agentBaker config sigConfig distro envInfo s (c : cache.t) :
  (∀ val err,
     (GetNodeBootstrapping agentBaker config s).1 = Returns val err →
     (is_Some val ∧ err = None) ∨ (val = None ∧ is_Some err))
  ∧ (∀ val err,
       (GetLatestSigImageConfig agentBaker sigConfig distro envInfo s).1
         = Returns val err →
       (is_Some val ∧ err = None) ∨ (val = None ∧ is_Some err))
  ∧ (∀ val err,
       (GetDistroSigImageConfig agentBaker sigConfig envInfo s).1 = Returns val err →
       (is_Some val ∧ err = None) ∨ (val = None ∧ is_Some err))
  ∧ (∀ val err,
       GetCachedVersionsOnVHD c = Returns val err →
       (is_Some val ∧ err = None) ∨ (val = None ∧ is_Some err)).
Proof.
  repeat split; intros val err.
  - unfold GetNodeBootstrapping.
    repeat case_match; intros [= <- <-] || intros [=]; eauto.
  - unfold GetLatestSigImageConfig.
    repeat case_match; simpl; intros [= <- <-]; eauto.
  - unfold GetDistroSigImageConfig.
    case_match; simpl; intros [= <- <-]; eauto.
  - unfold GetCachedVersionsOnVHD.
    repeat case_match; intros [= <- <-]; eauto.
Qed.

(** The two ways to an image agree.  When the configuration and the
    environment descriptor select the same SIG environment and give the same
    override for the distro, and the Windows flag of the profile is the
    Windows classification of the distro, the [SigImageConfig] of
    [GetNodeBootstrapping] and the result of [GetLatestSigImageConfig] point
    to equal values. *)
Theorem GetNodeBootstrapping_agrees_with_latest agentBaker config sigConfig
    envInfo s osImageConfigMap sigEnv c :
  isCustomized (distroOf (validated config)) = false →
  Store.AzureCloudToOSImageMap s !! cloudNameOf (validated config)
    = Some osImageConfigMap →
  sigEnvironmentOf (validated config) = inl sigEnv →
  sigEnvironmentAt sigConfig envInfo = inl sigEnv →
  firstMatch s sigEnv (distroOf (validated config)) = Some c →
  profileIsWindows (validated config) = IsWindowsDistro (distroOf (validated config)) →
  overridesOfConfig agentBaker (validated config) !! distroOf (validated config)
    = overridesOfEnvironment agentBaker envInfo !! distroOf (validated config) →
  ∃ nodeBootstrapping p s1 p' s2,
    GetNodeBootstrapping agentBaker config s
      = (Returns (Some nodeBootstrapping) None, s1)
    ∧ NodeBootstrapping.SigImageConfig nodeBootstrapping = Some p
    ∧ GetLatestSigImageConfig agentBaker sigConfig (distroOf (validated config))
        envInfo s
      = (Returns (Some p') None, s2)
    ∧ is_Some (Store.deref s1 p)
    ∧ Store.deref s1 p = Store.deref s2 p'.
Proof.
  intros Hc Hcloud Hsig Hsig' Hfind Hflag Hov.
  destruct (GetNodeBootstrapping_version agentBaker _ _ _ _ _ Hc Hcloud Hsig Hfind)
    as (nb & p & s1 & Hrun & Hp & Hderef).
  destruct (GetLatestSigImageConfig_version agentBaker _ _ _ _ _ _ Hsig' Hfind)
    as (p' & s2 & Hrun' & Hderef' & _).
  exists nb, p, s1, p', s2.
  split; [exact Hrun |]. split; [exact Hp |]. split; [exact Hrun' |].
  split; [by rewrite Hderef |].
  rewrite Hderef, Hderef', Hflag. unfold overridden. by rewrite Hov.
Qed.

(** For a Windows distro [GetLatestSigImageConfig] never consults the
    toggles: the result is the same for every agent baker. *)
Theorem GetLatestSigImageConfig_windows_distro agentBaker sigConfig distro envInfo s :
  IsWindowsDistro distro = true →
  ∀ agentBaker',
    GetLatestSigImageConfig agentBaker' sigConfig distro envInfo s
    = GetLatestSigImageConfig agentBaker sigConfig distro envInfo s.
Proof.
  intros Hw agentBaker'.
  destruct (sigEnvironmentAt sigConfig envInfo) as [sigEnv|err] eqn:Hsig.
  - rewrite !(GetLatestSigImageConfig_resolved _ _ _ _ _ _ Hsig).
    by rewrite Hw.
  - by rewrite !(GetLatestSigImageConfig_unresolved _ _ _ _ _ _ Hsig).
Qed.

End FurtherProperties.

(** The three inventories are tested in the order manifest, container
    images, downloaded files, and the first one that is [nil] decides the
    error; the three errors differ, so the error tells which one it was. *)
Theorem GetCachedVersionsOnVHD_first_missing (c : cache.t) :
  (cache.FromManifest c = None →
   GetCachedVersionsOnVHD c = Returns None (Some ManifestNotAvailable))
  ∧ (is_Some (cache.FromManifest c) →
     cache.FromComponentContainerImages c = None →
     GetCachedVersionsOnVHD c = Returns None (Some ContainerImagesNotAvailable))
  ∧ (is_Some (cache.FromManifest c) →
     is_Some (cache.FromComponentContainerImages c) →
     cache.FromComponentDownloadedFiles c = None →
     GetCachedVersionsOnVHD c = Returns None (Some DownloadedFilesNotAvailable))
  ∧ ManifestNotAvailable ≠ ContainerImagesNotAvailable
  ∧ ManifestNotAvailable ≠ DownloadedFilesNotAvailable
  ∧ ContainerImagesNotAvailable ≠ DownloadedFilesNotAvailable.
Proof.
  unfold GetCachedVersionsOnVHD.
  destruct c as [[m|] [i|] [f|]]; simpl;
    repeat split; try discriminate; try done;
    try (by intros [? [=]]); try (by intros _ [? [=]]).
Qed.

(** ** The operations on the example catalog *)

#[local] Existing Instances Example.datamodelPkg Example.togglesPkg Example.agentPkg.

(** ["both"] is in the Ubuntu and in the CBLMariner sub-catalogs, and the
    lookup finds the Ubuntu entry. *)
Example findSIGImageConfig_both :
  lookupEntry Example.spec "both" Example.store
  = Some (Example.entry "AKSUbuntu" "2024.02").
Proof. reflexivity. Qed.

(** C2. ["rhel"] is in the legacy catalog of the cloud and in no SIG
    sub-catalog, so the base resolution succeeds with the legacy entry
    alone; the profile is a Linux one and the override mapping has the key
    ["rhel"]: the override step dereferences the [nil] [SigImageConfig] and
    [GetNodeBootstrapping] panics instead of returning the artifact. *)
Theorem GetNodeBootstrapping_legacy_only_override :
  isCustomized "rhel" = false
  ∧ Store.AzureCloudToOSImageMap Example.store !! "AzurePublicCloud"
      ≫= (λ osImageConfigMap, osImageConfigMap !! "rhel")
    = Some (Example.legacy "7.3")
  ∧ firstMatch Example.store Example.spec "rhel" = None
  ∧ overridesOfConfig Example.agentBaker
      (validated (Example.config "rhel" Linux "AzurePublicCloud")) !! "rhel"
    = Some "override"
  ∧ GetNodeBootstrapping Example.agentBaker
      (Example.config "rhel" Linux "AzurePublicCloud") Example.store
    = (Panics, Example.store).
Proof. repeat split; vm_compute; reflexivity. Qed.

(** Without the override the same request returns the artifact with the
    legacy entry and a [nil] [SigImageConfig]. *)
Example GetNodeBootstrapping_legacy_only_plain :
  GetNodeBootstrapping Example.plainBaker
    (Example.config "rhel" Linux "AzurePublicCloud") Example.store
  = (Returns
       (Some {| NodeBootstrapping.CustomData := "payload";
                NodeBootstrapping.CSE := "cmd";
                NodeBootstrapping.OSImageConfig := Some (Example.legacy "7.3");
                NodeBootstrapping.SigImageConfig := None |})
       None,
     Example.store).
Proof. vm_compute. reflexivity. Qed.

(** C3, as stated, fails for [GetNodeBootstrapping]: ["aks-ubuntu"] is not a
    Windows distro and has an override, the profile is flagged Windows, and
    the version returned is the one of the catalog. *)
Lemma GetNodeBootstrapping_windows_profile_keeps_catalog_version :
  ∃ nodeBootstrapping p s' c,
    IsWindowsDistro "aks-ubuntu" = false
    ∧ overridesOfConfig Example.agentBaker
        (validated (Example.config "aks-ubuntu" Windows "AzurePublicCloud"))
        !! "aks-ubuntu" = Some "override"
    ∧ GetNodeBootstrapping Example.agentBaker
        (Example.config "aks-ubuntu" Windows "AzurePublicCloud") Example.store
      = (Returns (Some nodeBootstrapping) None, s')
    ∧ NodeBootstrapping.SigImageConfig nodeBootstrapping = Some p
    ∧ Store.deref s' p = Some c
    ∧ SigImageConfig.Version c = "2024.01"
    ∧ SigImageConfig.Version c ≠ "override".
Proof.
  eexists _, _, _, _.
  split; [reflexivity |]. split; [reflexivity |].
  split; [vm_compute; reflexivity |].
  split; [reflexivity |]. split; [reflexivity |].
  split; [reflexivity | discriminate].
Qed.

(** The other side of the same gate: ["aks-windows"] is a Windows distro,
    the profile is a Linux one, and the version returned is the override. *)
Example GetNodeBootstrapping_linux_profile_overrides_windows_distro :
  ∃ nodeBootstrapping s',
    IsWindowsDistro "aks-windows" = true
    ∧ GetNodeBootstrapping Example.agentBaker
        (Example.config "aks-windows" Linux "AzurePublicCloud") Example.store
      = (Returns (Some nodeBootstrapping) None, s')
    ∧ NodeBootstrapping.SigImageConfig nodeBootstrapping ≫= Store.deref s'
      = Some (Example.entry "AKSWindows" "override").
Proof.
  eexists _, _. split; [reflexivity |].
  split; [vm_compute; reflexivity | reflexivity].
Qed.

(** C4, as stated, fails: ["both"] is in the Ubuntu and in the CBLMariner
    sub-catalogs, CBLMariner comes after Ubuntu in the order of the family
    scan, and the merged map has the Ubuntu entry. *)
Lemma GetDistroSigImageConfig_ubuntu_overwrites_mariner :
  ∃ allDistros : gmap Distro SigImageConfig.t,
    GetDistroSigImageConfig Example.plainBaker tt Example.envInfo Example.store
      = (Returns (Some allDistros) None, Example.store)
    ∧ familyOrder Example.spec = [0; 1; 2; 3; 4]
    ∧ Store.mapAt Example.store 0 !! "both"
      = Some (Example.entry "AKSUbuntu" "2024.02")
    ∧ Store.mapAt Example.store 1 !! "both"
      = Some (Example.entry "AKSCBLMariner" "2024.03")
    ∧ allDistros !! "both" = Some (Example.entry "AKSUbuntu" "2024.02")
    ∧ allDistros !! "both" ≠ Some (Example.entry "AKSCBLMariner" "2024.03").
Proof.
  eexists. split; [reflexivity |].
  split; [reflexivity |]. split; [reflexivity |]. split; [reflexivity |].
  split; [vm_compute; reflexivity | vm_compute; discriminate].
Qed.

(** The merge order at work on the example: ["both"] is last found in the
    Ubuntu sub-catalog, the fourth of the merge order. *)
Lemma GetDistroSigImageConfig_merge_order_witness :
  ∃ allDistros : gmap Distro SigImageConfig.t,
    sigEnvironmentAt tt Example.envInfo = inl Example.spec
    ∧ GetDistroSigImageConfig Example.plainBaker tt Example.envInfo Example.store
      = (Returns (Some allDistros) None, Example.store)
    ∧ allDistros !! "both" = Some (Example.entry "AKSUbuntu" "2024.02").
Proof.
  assert (sigEnvironmentAt tt Example.envInfo = inl Example.spec) as Hsig
    by reflexivity.
  destruct (GetDistroSigImageConfig_merge_order Example.plainBaker tt
              Example.envInfo Example.store Example.spec Hsig)
    as (allDistros & Hrun & Hlookup).
  exists allDistros. split; [reflexivity |]. split; [exact Hrun |].
  destruct (Hlookup "both") as [Hlast _].
  apply (Hlast [3; 1; 2] 0 [4] (Example.entry "AKSUbuntu" "2024.02")).
  - reflexivity.
  - reflexivity.
  - repeat constructor.
Defined.

Lemma GetNodeBootstrapping_image_not_found_witness :
  (GetNodeBootstrapping Example.agentBaker
     (Example.config "nope" Linux "AzurePublicCloud") Example.store).1
  = Returns None (Some (ImageNotFound "nope")).
Proof.
  destruct (GetNodeBootstrapping_image_not_found Example.agentBaker
              (Example.config "nope" Linux "AzurePublicCloud") Example.store
              {[ "rhel" := Example.legacy "7.3";
                 "aks-ubuntu" := Example.legacy "2019.01" ]}
              Example.spec) as [[_ Habsent] _];
    [reflexivity | reflexivity | reflexivity |].
  apply Habsent. split; [reflexivity | repeat constructor].
Defined.

Lemma GetNodeBootstrapping_customized_bypass_witness :
  GetNodeBootstrapping Example.agentBaker
    (Example.config "CustomizedImage" Linux "Mars") Example.store
  = (Returns
       (Some {| NodeBootstrapping.CustomData := "payload";
                NodeBootstrapping.CSE := "cmd";
                NodeBootstrapping.OSImageConfig := None;
                NodeBootstrapping.SigImageConfig := None |})
       None,
     Example.store).
Proof.
  refine (GetNodeBootstrapping_customized_bypass Example.agentBaker
            (Example.config "CustomizedImage" Linux "Mars") Example.store _).
  right. left. reflexivity.
Defined.

Lemma GetNodeBootstrapping_unknown_cloud_witness :
  GetNodeBootstrapping Example.agentBaker
    (Example.config "aks-ubuntu" Linux "Mars") Example.store
  = (Returns None (Some (UnknownCloud "Mars")), Example.store).
Proof.
  refine (GetNodeBootstrapping_unknown_cloud Example.agentBaker
            (Example.config "aks-ubuntu" Linux "Mars") Example.store _ _);
    reflexivity.
Defined.

(** ** Further runs on the example catalog *)

Lemma GetNodeBootstrapping_sig_failure_witness :
  GetNodeBootstrapping Example.agentBaker
    {| NodeBootstrappingConfiguration.AgentPoolProfile :=
         {| AgentPoolProfile.Distro := "rhel"; AgentPoolProfile.OSType := Linux |};
       NodeBootstrappingConfiguration.CloudSpecConfig :=
         {| CloudSpecConfig.CloudName := "AzurePublicCloud" |};
       NodeBootstrappingConfiguration.SIGConfig := tt;
       NodeBootstrappingConfiguration.ContainerService :=
         {| ContainerService.Location := "nowhere" |};
       NodeBootstrappingConfiguration.Rest := tt |}
    Example.store
  = (Returns None (Some (errorString "unknown region")), Example.store).
Proof.
  refine (GetNodeBootstrapping_sig_failure Example.agentBaker _ Example.store
            {[ "rhel" := Example.legacy "7.3";
               "aks-ubuntu" := Example.legacy "2019.01" ]}
            (errorString "unknown region") _ _ _);
    reflexivity.
Defined.

Lemma GetDistroSigImageConfig_dom_witness :
  ∃ allDistros : gmap Distro SigImageConfig.t,
    GetDistroSigImageConfig Example.agentBaker tt Example.envInfo Example.store
      = (Returns (Some allDistros) None, Example.store)
    ∧ dom allDistros
      = dom (Store.mapAt Example.store 3) ∪ dom (Store.mapAt Example.store 1)
        ∪ dom (Store.mapAt Example.store 2) ∪ dom (Store.mapAt Example.store 0)
        ∪ dom (Store.mapAt Example.store 4).
Proof.
  refine (GetDistroSigImageConfig_dom Example.agentBaker tt Example.envInfo
            Example.store Example.spec _).
  reflexivity.
Defined.

Lemma GetDistroSigImageConfig_agrees_with_latest_witness :
  ∃ (allDistros : gmap Distro SigImageConfig.t) p s',
    GetDistroSigImageConfig Example.agentBaker tt Example.envInfo Example.store
      = (Returns (Some allDistros) None, Example.store)
    ∧ GetLatestSigImageConfig Example.agentBaker tt "aks-ubuntu" Example.envInfo
        Example.store
      = (Returns (Some p) None, s')
    ∧ allDistros !! "aks-ubuntu" = Store.deref s' p.
Proof.
  refine (GetDistroSigImageConfig_agrees_with_latest Example.agentBaker tt
            "aks-ubuntu" Example.envInfo Example.store Example.spec
            [] 0 [1; 2; 3; 4] (Example.entry "AKSUbuntu" "2024.01")
            _ _ _ _ _ _).
  - reflexivity.
  - reflexivity.
  - constructor.
  - repeat constructor.
  - reflexivity.
  - split.
    + intros H. discriminate H.
    + intros [x H]. discriminate H.
Defined.

Lemma GetNodeBootstrapping_artifact_witness :
  ∃ nodeBootstrapping s',
    GetNodeBootstrapping Example.agentBaker
      (Example.config "aks-ubuntu" Linux "AzurePublicCloud") Example.store
      = (Returns (Some nodeBootstrapping) None, s')
    ∧ NodeBootstrapping.CustomData nodeBootstrapping = "payload".
Proof.
  eexists _, _. split; [vm_compute; reflexivity |].
  refine (proj1 (GetNodeBootstrapping_artifact Example.agentBaker
                   (Example.config "aks-ubuntu" Linux "AzurePublicCloud")
                   Example.store _ _ _)).
  vm_compute. reflexivity.
Defined.

Lemma GetNodeBootstrapping_no_override_witness :
  ∃ nodeBootstrapping s',
    GetNodeBootstrapping Example.plainBaker
      (Example.config "rhel" Linux "AzurePublicCloud") Example.store
      = (Returns (Some nodeBootstrapping) None, s')
    ∧ NodeBootstrapping.OSImageConfig nodeBootstrapping
      = Some (Example.legacy "7.3")
    ∧ NodeBootstrapping.SigImageConfig nodeBootstrapping ≫= Store.deref s' = None.
Proof.
  refine (GetNodeBootstrapping_no_override Example.plainBaker
            (Example.config "rhel" Linux "AzurePublicCloud") Example.store
            {[ "rhel" := Example.legacy "7.3";
               "aks-ubuntu" := Example.legacy "2019.01" ]}
            Example.spec _ _ _ _ _);
    try reflexivity.
  left. by eexists.
Defined.

Lemma GetNodeBootstrapping_windows_profile_witness :
  (∀ agentBaker',
     GetNodeBootstrapping agentBaker'
       (Example.config "rhel" Windows "AzurePublicCloud") Example.store
     = GetNodeBootstrapping Example.agentBaker
         (Example.config "rhel" Windows "AzurePublicCloud") Example.store)
  ∧ ∃ val err,
      (GetNodeBootstrapping Example.agentBaker
         (Example.config "rhel" Windows "AzurePublicCloud") Example.store).1
      = Returns val err.
Proof.
  refine (GetNodeBootstrapping_windows_profile Example.agentBaker
            (Example.config "rhel" Windows "AzurePublicCloud") Example.store _).
  reflexivity.
Defined.

Lemma GetLatestSigImageConfig_windows_distro_witness :
  GetLatestSigImageConfig Example.plainBaker tt "aks-windows" Example.envInfo
    Example.store
  = GetLatestSigImageConfig Example.agentBaker tt "aks-windows" Example.envInfo
      Example.store.
Proof.
  refine (GetLatestSigImageConfig_windows_distro Example.agentBaker tt
            "aks-windows" Example.envInfo Example.store _ Example.plainBaker).
  reflexivity.
Defined.

Lemma GetLatestSigImageConfig_twice_witness :
  ∃ p1 s1 p2 s2,
    GetLatestSigImageConfig Example.agentBaker tt "both" Example.envInfo
      Example.store
      = (Returns (Some p1) None, s1)
    ∧ GetLatestSigImageConfig Example.agentBaker tt "both" Example.envInfo s1
      = (Returns (Some p2) None, s2)
    ∧ p2 ≠ p1
    ∧ Store.deref s2 p2 = Some (Example.entry "AKSUbuntu" "override")
    ∧ Store.deref s2 p1 = Some (Example.entry "AKSUbuntu" "override").
Proof.
  eexists _, _.
  assert (GetLatestSigImageConfig Example.agentBaker tt "both" Example.envInfo
            Example.store
          = (Returns (Some 0) None,
             {| Store.AzureCloudToOSImageMap :=
                  Store.AzureCloudToOSImageMap Example.store;
                Store.sigMaps := Store.sigMaps Example.store;
                Store.sigVars := [Example.entry "AKSUbuntu" "override"] |}))
    as Hrun by (vm_compute; reflexivity).
  destruct (GetLatestSigImageConfig_twice Example.agentBaker tt "both"
              Example.envInfo Example.store _ _ Hrun)
    as (p2 & s2 & Hrun2 & Hne & _ & H2 & H1).
  exists p2, s2. split; [exact Hrun |]. split; [exact Hrun2 |].
  split; [exact Hne |]. split; [exact H2 | exact H1].
Defined.

Lemma GetNodeBootstrapping_agrees_with_latest_witness :
  ∃ nodeBootstrapping p s1 p' s2,
    GetNodeBootstrapping Example.agentBaker
      (Example.config "aks-ubuntu" Linux "AzurePublicCloud") Example.store
      = (Returns (Some nodeBootstrapping) None, s1)
    ∧ NodeBootstrapping.SigImageConfig nodeBootstrapping = Some p
    ∧ GetLatestSigImageConfig Example.agentBaker tt "aks-ubuntu" Example.envInfo
        Example.store
      = (Returns (Some p') None, s2)
    ∧ is_Some (Store.deref s1 p)
    ∧ Store.deref s1 p = Store.deref s2 p'.
Proof.
  refine (GetNodeBootstrapping_agrees_with_latest Example.agentBaker
            (Example.config "aks-ubuntu" Linux "AzurePublicCloud") tt
            Example.envInfo Example.store
            {[ "rhel" := Example.legacy "7.3";
               "aks-ubuntu" := Example.legacy "2019.01" ]}
            Example.spec (Example.entry "AKSUbuntu" "2024.01")
            _ _ _ _ _ _ _);
    reflexivity.
Defined.
